(** * humio-operator: the HumioAlert reconciler and the HumioAction secret table

  A shallow embedding of
    - api/v1alpha1/humioaction_secret_helpers.go  (module [Secrets]),
    - the HumioAlert controller                    (module [AlertController]).

  Conventions.
    - A Go [error] value is [option error]: [None] is [nil].
    - A Go pointer that the code tests against [nil] is an [option].
    - Calls that leave the process (the Kubernetes client, the Humio
      client, the cluster helper, the transform, the annotation fix-up)
      are nodes of a program tree; an environment answers them, and
      running a tree yields the calls made, in order, and the value
      returned.
    - [r.Log] calls do not influence control flow and are left out.
    - A pointer the code mutates ([ha], [curAlert]) becomes a value that
      is passed on and returned.  What the API server writes back into
      the object on [Update], and what the collaborators might do to the
      object they are handed, is not part of the model: the object keeps
      the fields the controller itself has set. *)

From Stdlib Require Import ZArith List Bool Lia.
From stdpp Require Import base option strings gmap list.

Open Scope string_scope.

(** ** The secret table of HumioAction *)
Module Secrets.

(** [hn.Spec.SlackPostMessageProperties]: an optional block of the action's
    specification, reached through a pointer. *)
Record HumioActionSlackPostMessageProperties := mkSlackPost {
  ApiToken : string;
  Channels : list string
}.

Record HumioActionSpec := mkSpec {
  SlackPostMessageProperties : option HumioActionSlackPostMessageProperties
}.

Record HumioAction := mkAction {
  Namespace : string;
  Name : string;
  Spec : HumioActionSpec
}.

(** [fmt.Sprintf("%s-%s", hn.Namespace, hn.Name)] *)
Definition secretKey (hn : HumioAction) : string :=
  Namespace hn +:+ "-" +:+ Name hn.

(** [var HaSecrets map[string]string = make(map[string]string)] *)
Definition HaSecrets_init : gmap string string := ∅.

(** [HaHasSecret] reads the table, which is passed explicitly. *)
Definition HaHasSecret (HaSecrets : gmap string string) (hn : HumioAction)
  : string * bool :=
  match HaSecrets !! secretKey hn with
  | Some secret => (secret, true)
  | None => ("", false)
  end.

(** [SecretFromHa] writes the table and clears the token on the action.
    The result is the new table and the mutated action; [None] is the
    nil-pointer panic of reading [ApiToken] through an absent block. *)
Definition SecretFromHa (HaSecrets : gmap string string) (hn : HumioAction)
  : option (gmap string string * HumioAction) :=
  let key := secretKey hn in
  match SlackPostMessageProperties (Spec hn) with
  | None => None
  | Some props =>
      let value := ApiToken props in
      Some (<[key := value]> HaSecrets,
            mkAction (Namespace hn) (Name hn)
              (mkSpec (Some (mkSlackPost "" (Channels props)))))
  end.

(** A run of [SecretFromHa] over several actions, from a given table.
    An action without the Slack block ends the run (the panic). *)
Fixpoint SecretFromHa_all (HaSecrets : gmap string string)
    (hns : list HumioAction) : option (gmap string string) :=
  match hns with
  | [] => Some HaSecrets
  | hn :: rest =>
      match SecretFromHa HaSecrets hn with
      | None => None
      | Some (m, _) => SecretFromHa_all m rest
      end
  end.

Definition token_of (hn : HumioAction) : option string :=
  match SlackPostMessageProperties (Spec hn) with
  | Some props => Some (ApiToken props)
  | None => None
  end.

(** What the table holds under [key] once [SecretFromHa] has run over
    [hns], when it held [start] before: the token of the last action of
    [hns] stored under [key], if there is one. *)
Fixpoint storedAfter (key : string) (hns : list HumioAction)
    (start : option string) : option string :=
  match hns with
  | [] => start
  | hn :: rest =>
      storedAfter key rest
        (if String.eqb (secretKey hn) key then token_of hn else start)
  end.

End Secrets.


(** ** The HumioAlert controller *)
Module AlertController.

(** *** Errors *)

(** The error values the controller distinguishes.  [wrapError] is the
    value built by [fmt.Errorf("%s: %w", msg, err)]; [errors.As] and the
    Kubernetes classification look through it. *)
Inductive error :=
| EntityNotFound                       (* humioapi.EntityNotFound{} *)
| StatusNotFound                       (* API status error, reason NotFound *)
| errorString (msg : string)           (* any other error value *)
| wrapError (msg : string) (err : error).

(** [errors.As(err, &humioapi.EntityNotFound{})] on a non-nil error. *)
Fixpoint As_EntityNotFound (e : error) : bool :=
  match e with
  | EntityNotFound => true
  | wrapError _ e' => As_EntityNotFound e'
  | _ => false
  end.

(** [errors.As(err, &humioapi.EntityNotFound{})]; false on [nil]. *)
Definition errors_As_EntityNotFound (err : option error) : bool :=
  match err with
  | Some e => As_EntityNotFound e
  | None => false
  end.

(** [k8serrors.IsNotFound] *)
Fixpoint IsNotFound (e : error) : bool :=
  match e with
  | StatusNotFound => true
  | wrapError _ e' => IsNotFound e'
  | _ => false
  end.

(** [logErrorAndReturn]: the log line is dropped, the wrapped error kept. *)
Definition logErrorAndReturn (err : error) (msg : string) : error :=
  wrapError msg err.

(** *** Data *)

(** [humioapi.Config] is owned by the Humio client library; the controller
    only hands it on. *)
Record Config := mkConfig { Address : string }.

(** [helpers.Cluster]: [Config()] may return nil. *)
Record Cluster := mkCluster { ClusterConfig : option Config }.

(** Modelled from the spec: [humioapi.Alert] is declared in the Humio client
    library, outside the given sources.  The three server-managed fields keep
    the names the controller uses; the declarative fields follow the data
    model (name, query, throttle settings, resolved target identifiers).
    A slice is [None] when nil, so that equality of records is
    [reflect.DeepEqual]. *)
Record Alert := mkAlert {
  ID : string;
  Name : string;
  QueryString : string;
  ThrottleTimeMillis : Z;
  Actions : option (list string);
  TimeOfLastTrigger : Z;
  LastError : string
}.

#[global] Instance Alert_eq_dec : EqDecision Alert.
Proof. solve_decision. Defined.

(** [reflect.DeepEqual] on the two dereferenced alerts. *)
Definition DeepEqual (a b : Alert) : bool := bool_decide (a = b).

(** [ctrl.Request] *)
Record Request := mkRequest { ReqNamespace : string; ReqName : string }.

(** Modelled from the spec: the HumioAlert type is declared in
    api/v1alpha1, in a file outside the given sources.  The fields are the
    ones the controller reads or writes, and the declared alert. *)
Record HumioAlertSpec := mkHumioAlertSpec {
  ManagedClusterName : string;
  ExternalClusterName : string;
  SpecName : string;
  SpecQueryString : string;
  SpecThrottleTimeMillis : Z;
  SpecActions : list string
}.

Record HumioAlert := mkHumioAlert {
  Namespace : string;
  ObjectName : string;
  UID : string;
  DeletionTimestamp : option Z;
  Finalizers : list string;
  Spec : HumioAlertSpec;
  StatusState : string
}.

#[global] Instance Config_eq_dec : EqDecision Config.
Proof. solve_decision. Defined.
#[global] Instance Request_eq_dec : EqDecision Request.
Proof. solve_decision. Defined.
#[global] Instance HumioAlertSpec_eq_dec : EqDecision HumioAlertSpec.
Proof. solve_decision. Defined.
#[global] Instance HumioAlert_eq_dec : EqDecision HumioAlert.
Proof. solve_decision. Defined.

(** [ha.SetFinalizers(fs)] *)
Definition SetFinalizers (ha : HumioAlert) (fs : list string) : HumioAlert :=
  mkHumioAlert (Namespace ha) (ObjectName ha) (UID ha) (DeletionTimestamp ha)
    fs (Spec ha) (StatusState ha).

(** [ha.Status.State = state] *)
Definition SetStatusState (ha : HumioAlert) (state : string) : HumioAlert :=
  mkHumioAlert (Namespace ha) (ObjectName ha) (UID ha) (DeletionTimestamp ha)
    (Finalizers ha) (Spec ha) state.

(** Modelled from the spec: the finalizer token, "an opaque marker string";
    the constant is declared in another file of package controllers. *)
Definition humioFinalizer : string := "core.humio.com/finalizer".

(** Modelled from the spec: the status values [Exists], [NotFound] and
    [ConfigError], declared with the HumioAlert type. *)
Definition HumioAlertStateExists : string := "Exists".
Definition HumioAlertStateNotFound : string := "NotFound".
Definition HumioAlertStateConfigError : string := "ConfigError".

(** Modelled from the spec: [helpers.ContainsElement] lives in pkg/helpers,
    outside the given sources; it tells whether the token is in the list. *)
Definition ContainsElement (l : list string) (s : string) : bool :=
  existsb (String.eqb s) l.

(** Modelled from the spec: [helpers.RemoveElement] lives in pkg/helpers,
    outside the given sources; it removes the token from the list. *)
Definition RemoveElement (l : list string) (s : string) : list string :=
  List.filter (fun v => negb (String.eqb v s)) l.

(** [reconcile.Result] *)
Record Result := mkResult { Requeue : bool; RequeueAfter : Z }.

(** [reconcile.Result{}] *)
Definition Result_zero : Result := mkResult false 0.

(** [reconcile.Result{Requeue: true}] *)
Definition Result_requeue : Result := mkResult true 0.

(** How a function leaves: by [return], or by a run-time panic. *)
Inductive outcome :=
| Returned (res : Result) (err : option error)
| Panicked.

(** [sanitizeAlert]: the pointer update becomes the new record. *)
Definition sanitizeAlert (alert : Alert) : Alert :=
  mkAlert "" (Name alert) (QueryString alert) (ThrottleTimeMillis alert)
    (Actions alert) 0 "".

(** *** Calls that leave the controller *)

(** One constructor per collaborator the controller calls.  The first two
    and the last three are the Kubernetes client, the cluster helper, the
    transform of pkg/humio and the annotation fix-up; the others are the
    methods of [humio.Client]. *)
Inductive call :=
| Get (key : Request)                 (* r.Get(ctx, req.NamespacedName, ha) *)
| NewCluster (managed external namespace : string)
    (* helpers.NewCluster(ctx, r, managed, external, namespace,
       helpers.UseCertManager(), true) *)
| GetAlert (config : Config) (req : Request) (ha : HumioAlert)
| AddAlert (config : Config) (req : Request) (ha : HumioAlert)
| UpdateAlert (config : Config) (req : Request) (ha : HumioAlert)
| DeleteAlert (config : Config) (req : Request) (ha : HumioAlert)
| GetActionIDsMapForAlerts (config : Config) (req : Request) (ha : HumioAlert)
| AlertTransform (ha : HumioAlert) (actionIdMap : gmap string string)
| Update (ha : HumioAlert)             (* r.Update(ctx, ha) *)
| StatusUpdate (ha : HumioAlert)       (* r.Status().Update(ctx, ha) *)
| reconcileHumioAlertAnnotations
    (addedAlert : option Alert) (ha : HumioAlert) (req : Request).

(** What each call hands back. *)
Definition resp (c : call) : Type :=
  match c with
  | Get _ => (HumioAlert * option error)%type
  | NewCluster _ _ _ => (option Cluster * option error)%type
  | GetAlert _ _ _ => (option Alert * option error)%type
  | AddAlert _ _ _ => (option Alert * option error)%type
  | UpdateAlert _ _ _ => (option Alert * option error)%type
  | DeleteAlert _ _ _ => option error
  | GetActionIDsMapForAlerts _ _ _ => (gmap string string * option error)%type
  | AlertTransform _ _ => (option Alert * option error)%type
  | Update _ => option error
  | StatusUpdate _ => option error
  | reconcileHumioAlertAnnotations _ _ _ => (Result * option error)%type
  end.

(** A call to the remote alerting service (a method of [humio.Client]). *)
Definition is_remote (c : call) : bool :=
  match c with
  | GetAlert _ _ _ | AddAlert _ _ _ | UpdateAlert _ _ _ | DeleteAlert _ _ _
  | GetActionIDsMapForAlerts _ _ _ => true
  | _ => false
  end.

(** A remote call that creates, updates or deletes the alert. *)
Definition is_remote_mutation (c : call) : bool :=
  match c with
  | AddAlert _ _ _ | UpdateAlert _ _ _ | DeleteAlert _ _ _ => true
  | _ => false
  end.

Definition is_create (c : call) : bool :=
  match c with AddAlert _ _ _ => true | _ => false end.

Definition is_update (c : call) : bool :=
  match c with UpdateAlert _ _ _ => true | _ => false end.

Definition is_delete (c : call) : bool :=
  match c with DeleteAlert _ _ _ => true | _ => false end.

(** [r.Status().Update] *)
Definition is_status_write (c : call) : bool :=
  match c with StatusUpdate _ => true | _ => false end.

(** [r.Update], the write that carries the finalizer list. *)
Definition is_finalizer_write (c : call) : bool :=
  match c with Update _ => true | _ => false end.

(** Number of calls of a kind in a trace. *)
Definition count (f : call -> bool) (t : list call) : nat :=
  length (List.filter f t).

(** *** Programs *)

(** A program either returns or makes a call and goes on with the answer. *)
Inductive Prog (A : Type) : Type :=
| Ret (a : A)
| Vis (c : call) (k : resp c -> Prog A).
Arguments Ret {A} a.
Arguments Vis {A} c k.

Fixpoint bind {A B} (p : Prog A) (f : A -> Prog B) : Prog B :=
  match p with
  | Ret a => f a
  | Vis c k => Vis c (fun x => bind (k x) f)
  end.

Definition perform (c : call) : Prog (resp c) := Vis c Ret.

Notation "x <~ p ; q" := (bind p (fun x => q))
  (at level 20, p at level 100, q at level 200, only parsing).
Notation "' pat <~ p ; q" := (bind p (fun x => match x with pat => q end))
  (at level 20, pat pattern, p at level 100, q at level 200, only parsing).

(** The world outside: it answers a call knowing the calls made before. *)
Definition Env : Type := list call -> forall c : call, resp c.

(** [run env h p] runs [p] after the calls [h]; it gives the calls [p]
    makes, in order, and what [p] returns. *)
Fixpoint run {A} (env : Env) (h : list call) (p : Prog A) : list call * A :=
  match p with
  | Ret a => ([], a)
  | Vis c k =>
      let r := run env (h ++ [c]) (k (env h c)) in
      (c :: fst r, snd r)
  end.

(** *** The controller *)

(** [p != nil] and [p == nil], for pointers and for errors. *)
Definition notNil {A} (p : option A) : bool :=
  match p with Some _ => true | None => false end.

Definition isNil {A} (p : option A) : bool := negb (notNil p).

(** [setState]: nothing is written when the state is already the wanted
    one; otherwise the field is set and the status sub-resource updated.
    The pair is the object after the call and the error returned. *)
Definition setState (state : string) (ha : HumioAlert)
  : Prog (HumioAlert * option error) :=
  if String.eqb (StatusState ha) state then Ret (ha, None)
  else
    let ha := SetStatusState ha state in
    err <~ perform (StatusUpdate ha) ;
    Ret (ha, err).

(** [reconcileHumioAlert].  The pair is the object [ha] points to when the
    function leaves, and how it leaves. *)
Definition reconcileHumioAlert (config : Config) (ha : HumioAlert)
    (req : Request) : Prog (HumioAlert * outcome) :=
  (* Delete *)
  let isMarkedForDeletion := notNil (DeletionTimestamp ha) in
  if isMarkedForDeletion then
    if ContainsElement (Finalizers ha) humioFinalizer then
      err <~ perform (DeleteAlert config req ha) ;
      match err with
      | Some err =>
          Ret (ha, Returned Result_zero
                     (Some (logErrorAndReturn err "Delete alert returned error")))
      | None =>
          let ha := SetFinalizers ha (RemoveElement (Finalizers ha) humioFinalizer) in
          err <~ perform (Update ha) ;
          match err with
          | Some err => Ret (ha, Returned Result_zero (Some err))
          | None => Ret (ha, Returned Result_zero None)
          end
      end
    else Ret (ha, Returned Result_zero None)
  else
  (* Add finalizer for this CR *)
  if negb (ContainsElement (Finalizers ha) humioFinalizer) then
    let ha := SetFinalizers ha (Finalizers ha ++ [humioFinalizer]) in
    err <~ perform (Update ha) ;
    match err with
    | Some err => Ret (ha, Returned Result_zero (Some err))
    | None => Ret (ha, Returned Result_requeue None)
    end
  else
  (* Add Alert *)
  '(curAlert, err) <~ perform (GetAlert config req ha) ;
  if errors_As_EntityNotFound err then
    '(addedAlert, err) <~ perform (AddAlert config req ha) ;
    match err with
    | Some err =>
        Ret (ha, Returned Result_zero
                   (Some (logErrorAndReturn err "could not create alert")))
    | None =>
        '(result, err) <~ perform (reconcileHumioAlertAnnotations addedAlert ha req) ;
        match err with
        | Some err => Ret (ha, Returned result (Some err))
        | None => Ret (ha, Returned Result_requeue None)
        end
    end
  else
  match err with
  | Some err =>
      Ret (ha, Returned Result_zero
                 (Some (logErrorAndReturn err "could not check if alert exists")))
  | None =>
  (* Update *)
  '(actionIdMap, err) <~ perform (GetActionIDsMapForAlerts config req ha) ;
  match err with
  | Some err =>
      Ret (ha, Returned Result_zero
                 (Some (logErrorAndReturn err "could not get action id mapping")))
  | None =>
  '(expectedAlert, err) <~ perform (AlertTransform ha actionIdMap) ;
  match err with
  | Some err =>
      Ret (ha, Returned Result_zero
                 (Some (logErrorAndReturn err "could not parse expected Alert")))
  | None =>
  match curAlert with
  | None => Ret (ha, Panicked)          (* sanitizeAlert on a nil pointer *)
  | Some curAlert =>
  let curAlert := sanitizeAlert curAlert in
  match expectedAlert with
  | None => Ret (ha, Panicked)          (* dereference of a nil pointer *)
  | Some expectedAlert =>
  if negb (DeepEqual curAlert expectedAlert) then
    '(alert, err) <~ perform (UpdateAlert config req ha) ;
    match err with
    | Some err =>
        Ret (ha, Returned Result_zero
                   (Some (logErrorAndReturn err "could not update alert")))
    | None => Ret (ha, Returned Result_zero None)
    end
  else Ret (ha, Returned Result_zero None)
  end end end end end.

(** The function deferred by [Reconcile]: the status refresh.  The errors
    of [setState] are assigned to the blank identifier.  The result is the
    object [ha] points to when the deferred function is done. *)
Definition statusRefresh (config : Config) (req : Request) (ha : HumioAlert)
  : Prog HumioAlert :=
  '(curAlert, err) <~ perform (GetAlert config req ha) ;
  if errors_As_EntityNotFound err then
    '(ha, _) <~ setState HumioAlertStateNotFound ha ; Ret ha
  else if notNil err || isNil curAlert then
    '(ha, _) <~ setState HumioAlertStateConfigError ha ; Ret ha
  else
    '(ha, _) <~ setState HumioAlertStateExists ha ; Ret ha.

(** The guard of [Reconcile] on the answer of [helpers.NewCluster]:
    [err != nil || cluster == nil || cluster.Config() == nil]. *)
Definition noUsableConfig (cluster : option Cluster) (err : option error)
  : bool :=
  notNil err ||
  match cluster with
  | None => true
  | Some cluster => isNil (ClusterConfig cluster)
  end.

(** [cluster.Config()] where the guard has passed. *)
Definition configOf (cluster : option Cluster) : option Config :=
  match cluster with
  | Some cluster => ClusterConfig cluster
  | None => None
  end.

(** [Reconcile]; [rNamespace] is the field [r.Namespace]. *)
Definition Reconcile (rNamespace : string) (req : Request) : Prog outcome :=
  if negb (String.eqb rNamespace "") &&
     negb (String.eqb rNamespace (ReqNamespace req))
  then Ret (Returned Result_zero None)
  else
  '(ha, err) <~ perform (Get req) ;
  match err with
  | Some err =>
      if IsNotFound err then Ret (Returned Result_zero None)
      else Ret (Returned Result_zero (Some err))
  | None =>
  '(cluster, err) <~ perform
     (NewCluster (ManagedClusterName (Spec ha)) (ExternalClusterName (Spec ha))
                 (Namespace ha)) ;
  if noUsableConfig cluster err then
    '(ha, err) <~ setState HumioAlertStateConfigError ha ;
    match err with
    | Some err' =>
        Ret (Returned Result_zero
               (Some (logErrorAndReturn err' "unable to set alert state")))
    | None => Ret (Returned Result_zero err)
    end
  else
  match configOf cluster with
  | None => Ret Panicked                 (* excluded by the guard *)
  | Some config =>
  '(ha, out) <~ reconcileHumioAlert config ha req ;
  _ <~ statusRefresh config req ha ;
  Ret out
  end end.

(** *** The words of the specification *)

(** The status the refresh is to record for an answer of the fetch:
    [NotFound] when the resource is absent, [ConfigError] when the fetch
    failed otherwise or returned nothing, [Exists] when it succeeded. *)
Definition refreshedState (answer : option Alert * option error) : string :=
  match answer with
  | (_, Some e) =>
      if As_EntityNotFound e then HumioAlertStateNotFound
      else HumioAlertStateConfigError
  | (None, None) => HumioAlertStateConfigError
  | (Some _, None) => HumioAlertStateExists
  end.

(** Two alerts differ at most in the server-managed fields (last-trigger
    timestamp, assigned identifier, last-error text): they agree on every
    other field. *)
Definition differOnlyInServerManaged (a b : Alert) : Prop :=
  Name a = Name b /\ QueryString a = QueryString b /\
  ThrottleTimeMillis a = ThrottleTimeMillis b /\ Actions a = Actions b.

(** The server-managed fields of an alert hold their zero values. *)
Definition serverManagedZero (a : Alert) : Prop :=
  ID a = "" /\ TimeOfLastTrigger a = 0%Z /\ LastError a = "".

(** *** Reading a trace *)

(** The error in the answer to a call. *)
Definition errOf (c : call) : resp c -> option error :=
  match c return resp c -> option error with
  | Get _ => snd
  | NewCluster _ _ _ => snd
  | GetAlert _ _ _ => snd
  | AddAlert _ _ _ => snd
  | UpdateAlert _ _ _ => snd
  | DeleteAlert _ _ _ => fun err => err
  | GetActionIDsMapForAlerts _ _ _ => snd
  | AlertTransform _ _ => snd
  | Update _ => fun err => err
  | StatusUpdate _ => fun err => err
  | reconcileHumioAlertAnnotations _ _ _ => snd
  end.

(** The error answered to the last call of the trace [t], which was made
    after the calls [h]; nil when [t] is empty. *)
Definition lastError (env : Env) (h t : list call) : option error :=
  match last t with
  | Some c => errOf c (env (app h (removelast t)) c)
  | None => None
  end.

(** The error below one label of [logErrorAndReturn], or the error itself. *)
Definition unlabelled (e : error) : error :=
  match e with
  | wrapError _ e' => e'
  | _ => e
  end.

End AlertController.

(** ** Concrete inputs *)
Module Samples.
Import AlertController.

(** An environment that answers every call of a kind the same way. *)
Record Script := mkScript {
  onGet : HumioAlert * option error;
  onNewCluster : option Cluster * option error;
  onGetAlert : option Alert * option error;
  onAddAlert : option Alert * option error;
  onUpdateAlert : option Alert * option error;
  onDeleteAlert : option error;
  onGetActionIDsMapForAlerts : gmap string string * option error;
  onAlertTransform : option Alert * option error;
  onUpdate : option error;
  onStatusUpdate : option error;
  onAnnotations : Result * option error
}.

Definition scripted (s : Script) : Env :=
  fun _ c =>
    match c return resp c with
    | Get _ => onGet s
    | NewCluster _ _ _ => onNewCluster s
    | GetAlert _ _ _ => onGetAlert s
    | AddAlert _ _ _ => onAddAlert s
    | UpdateAlert _ _ _ => onUpdateAlert s
    | DeleteAlert _ _ _ => onDeleteAlert s
    | GetActionIDsMapForAlerts _ _ _ => onGetActionIDsMapForAlerts s
    | AlertTransform _ _ => onAlertTransform s
    | Update _ => onUpdate s
    | StatusUpdate _ => onStatusUpdate s
    | reconcileHumioAlertAnnotations _ _ _ => onAnnotations s
    end.

Definition req0 : Request := mkRequest "logging" "disk-full".
Definition cfg0 : Config := mkConfig "https://humio.example".
Definition cluster0 : Cluster := mkCluster (Some cfg0).
Definition spec0 : HumioAlertSpec :=
  mkHumioAlertSpec "humio" "" "disk-full" "level=error" 60000 ["slack-ops"].

(** A new object: no deletion marker, no finalizer, status unset. *)
Definition haNew : HumioAlert :=
  mkHumioAlert "logging" "disk-full" "uid-1" None [] spec0 "".

(** The same object once the finalizer is attached. *)
Definition haLive : HumioAlert :=
  mkHumioAlert "logging" "disk-full" "uid-1" None [humioFinalizer] spec0 "".

(** Marked for deletion, finalizer still attached. *)
Definition haDeleting : HumioAlert :=
  mkHumioAlert "logging" "disk-full" "uid-1" (Some 1700000000%Z)
    [humioFinalizer] spec0 "".

(** Marked for deletion, finalizer gone. *)
Definition haGone : HumioAlert :=
  mkHumioAlert "logging" "disk-full" "uid-1" (Some 1700000000%Z) [] spec0 "".

(** The alert the transform yields, with the server-managed fields empty. *)
Definition alertExpected : Alert :=
  mkAlert "" "disk-full" "level=error" 60000 (Some ["action-7"]) 0 "".

(** The alert as the service holds it. *)
Definition alertFetched : Alert :=
  mkAlert "alert-42" "disk-full" "level=error" 60000 (Some ["action-7"])
    1699999999 "timeout".

(** An alert a transform could yield that carries an identifier. *)
Definition alertExpectedWithID : Alert :=
  mkAlert "alert-42" "disk-full" "level=error" 60000 (Some ["action-7"]) 0 "".

Definition idMap0 : gmap string string := {[ "slack-ops" := "action-7" ]}.

(** Everything succeeds; the alert exists and matches. *)
Definition scriptSteady : Script :=
  mkScript (haLive, None) (Some cluster0, None) (Some alertFetched, None)
    (Some alertFetched, None) (Some alertFetched, None) None
    (idMap0, None) (Some alertExpected, None) None None (Result_zero, None).

(** No cluster configuration can be obtained; the status write succeeds. *)
Definition scriptNoConfig : Script :=
  mkScript (haLive, None) (None, Some (errorString "no such cluster"))
    (None, None) (None, None) (None, None) None
    (idMap0, None) (Some alertExpected, None) None None (Result_zero, None).

(** The remote delete fails. *)
Definition scriptDeleteFails : Script :=
  mkScript (haDeleting, None) (Some cluster0, None) (Some alertFetched, None)
    (None, None) (None, None) (Some (errorString "503"))
    (idMap0, None) (Some alertExpected, None) None None (Result_zero, None).

(** The remote delete succeeds. *)
Definition scriptDeleteOk : Script :=
  mkScript (haDeleting, None) (Some cluster0, None) (None, Some EntityNotFound)
    (None, None) (None, None) None
    (idMap0, None) (Some alertExpected, None) None None (Result_zero, None).

(** The alert is absent and is created; the annotation fix-up fails. *)
Definition scriptCreateFixupFails : Script :=
  mkScript (haLive, None) (Some cluster0, None) (None, Some EntityNotFound)
    (Some alertFetched, None) (None, None) None
    (idMap0, None) (Some alertExpected, None) None None
    (Result_zero, Some (errorString "failed to add ID annotation to alert")).

(** The alert is absent and is created; the fix-up succeeds. *)
Definition scriptCreateOk : Script :=
  mkScript (haLive, None) (Some cluster0, None) (None, Some EntityNotFound)
    (Some alertFetched, None) (None, None) None
    (idMap0, None) (Some alertExpected, None) None None (Result_zero, None).

(** The transform yields an alert that carries an identifier. *)
Definition scriptTransformWithID : Script :=
  mkScript (haLive, None) (Some cluster0, None) (Some alertFetched, None)
    (None, None) (Some alertFetched, None) None
    (idMap0, None) (Some alertExpectedWithID, None) None None
    (Result_zero, None).

(** The object is already deleted remotely and unfinalized. *)
Definition scriptGone : Script :=
  mkScript (haGone, None) (Some cluster0, None) (None, Some EntityNotFound)
    (None, None) (None, None) None
    (idMap0, None) (Some alertExpected, None) None None (Result_zero, None).

(** A HumioAction with a Slack token. *)
Definition actionSlack : Secrets.HumioAction :=
  Secrets.mkAction "logging" "notify"
    (Secrets.mkSpec (Some (Secrets.mkSlackPost "xoxb-1" ["#ops"]))).

(** Another action, under another key. *)
Definition actionOther : Secrets.HumioAction :=
  Secrets.mkAction "logging" "page"
    (Secrets.mkSpec (Some (Secrets.mkSlackPost "xoxb-2" ["#oncall"]))).

(** The object cannot be read: it is gone. *)
Definition scriptObjectGone : Script :=
  mkScript (haNew, Some StatusNotFound) (Some cluster0, None)
    (None, None) (None, None) (None, None) None
    (idMap0, None) (Some alertExpected, None) None None (Result_zero, None).

(** The existence fetch fails, and not with the not-found classification. *)
Definition scriptFetchFails : Script :=
  mkScript (haLive, None) (Some cluster0, None)
    (None, Some (errorString "timeout"))
    (None, None) (None, None) None
    (idMap0, None) (Some alertExpected, None) None None (Result_zero, None).

(** The action ids cannot be resolved. *)
Definition scriptActionIdsFail : Script :=
  mkScript (haLive, None) (Some cluster0, None) (Some alertFetched, None)
    (None, None) (None, None) None
    (idMap0, Some (errorString "no such action"))
    (Some alertExpected, None) None None (Result_zero, None).

(** The fetch answers neither an alert nor an error. *)
Definition scriptNilAlert : Script :=
  mkScript (haLive, None) (Some cluster0, None) (None, None)
    (None, None) (None, None) None
    (idMap0, None) (Some alertExpected, None) None None (Result_zero, None).

(** The status write is refused. *)
Definition scriptStatusWriteFails : Script :=
  mkScript (haLive, None) (Some cluster0, None) (Some alertFetched, None)
    (None, None) (None, None) None
    (idMap0, None) (Some alertExpected, None) None
    (Some (errorString "conflict")) (Result_zero, None).

(** The object in the steady state: finalizer attached, status [Exists]. *)
Definition haExists : HumioAlert :=
  mkHumioAlert "logging" "disk-full" "uid-1" None [humioFinalizer] spec0
    HumioAlertStateExists.

(** Everything succeeds; the alert exists and matches; the status is
    already recorded. *)
Definition scriptSteadyExists : Script :=
  mkScript (haExists, None) (Some cluster0, None) (Some alertFetched, None)
    (Some alertFetched, None) (Some alertFetched, None) None
    (idMap0, None) (Some alertExpected, None) None None (Result_zero, None).

(** The first pass over a new object; every call succeeds. *)
Definition scriptFirstPass : Script :=
  mkScript (haNew, None) (Some cluster0, None) (None, Some EntityNotFound)
    (Some alertFetched, None) (None, None) None
    (idMap0, None) (Some alertExpected, None) None None (Result_zero, None).

(** The first pass over a new object; the write of the token is refused. *)
Definition scriptAttachRefused : Script :=
  mkScript (haNew, None) (Some cluster0, None) (None, Some EntityNotFound)
    (Some alertFetched, None) (None, None) None
    (idMap0, None) (Some alertExpected, None)
    (Some (errorString "conflict")) None (Result_zero, None).

(** The remote delete succeeds; the write that removes the token is
    refused. *)
Definition scriptUnfinalizeRefused : Script :=
  mkScript (haDeleting, None) (Some cluster0, None) (None, Some EntityNotFound)
    (None, None) (None, None) None
    (idMap0, None) (Some alertExpected, None)
    (Some (errorString "conflict")) None (Result_zero, None).

(** An action whose namespace holds a dash, and one whose name does. *)
Definition actionDashNamespace : Secrets.HumioAction :=
  Secrets.mkAction "team-a" "notify"
    (Secrets.mkSpec (Some (Secrets.mkSlackPost "xoxb-3" []))).

Definition actionDashName : Secrets.HumioAction :=
  Secrets.mkAction "team" "a-notify" (Secrets.mkSpec None).

End Samples.

(** ** Properties of the controller *)
Section ControllerFacts.
Import AlertController.
Local Open Scope list_scope.

(** *** Running programs *)

Lemma run_bind {A B} (env : Env) (p : Prog A) (f : A -> Prog B) :
  forall h,
    run env h (bind p f) =
    (fst (run env h p) ++ fst (run env (h ++ fst (run env h p)) (f (snd (run env h p)))),
     snd (run env (h ++ fst (run env h p)) (f (snd (run env h p))))).
Proof.
  induction p as [a | c k IH]; intros h; simpl.
  - rewrite app_nil_r. by destruct (run env h (f a)).
  - rewrite IH. simpl. by rewrite <- !app_assoc.
Qed.

(** *** The finalizer list *)

Lemma ContainsElement_In l s : ContainsElement l s = true <-> In s l.
Proof.
  unfold ContainsElement. rewrite existsb_exists. split.
  - intros (x & Hx & Heq). apply String.eqb_eq in Heq. by subst.
  - intros H. exists s. split; [done | apply String.eqb_refl].
Qed.

Lemma ContainsElement_attach l s : ContainsElement (l ++ [s]) s = true.
Proof. apply ContainsElement_In, in_or_app. right. by left. Qed.

Lemma ContainsElement_RemoveElement l s :
  ContainsElement (RemoveElement l s) s = false.
Proof.
  apply not_true_is_false. rewrite ContainsElement_In. unfold RemoveElement.
  rewrite filter_In. intros [_ H]. by rewrite String.eqb_refl in H.
Qed.

(** *** Case analysis on the answers of the environment *)

Ltac answers :=
  repeat (cbn -[humioFinalizer ContainsElement RemoveElement DeepEqual
               sanitizeAlert String.eqb];
          try case_match; simplify_eq).

(** [setState] writes the status at most once. *)
Lemma setState_trace (env : Env) (h : list call) state ha :
  fst (run env h (setState state ha)) = [] \/
  fst (run env h (setState state ha)) = [StatusUpdate (SetStatusState ha state)].
Proof. unfold setState. destruct (String.eqb _ _); cbn; auto. Qed.

Lemma reconcileHumioAlert_counts (env : Env) (h : list call) config ha req :
  let t := fst (run env h (reconcileHumioAlert config ha req)) in
  count is_remote_mutation t <= 1 /\
  count is_finalizer_write t <= 1 /\
  count is_status_write t = 0.
Proof.
  unfold reconcileHumioAlert. answers; cbn; lia.
Qed.

Lemma reconcileHumioAlert_create_needs_finalizer
    (env : Env) (h : list call) config ha req :
  count is_create (fst (run env h (reconcileHumioAlert config ha req))) <> 0 ->
  DeletionTimestamp ha = None /\
  ContainsElement (Finalizers ha) humioFinalizer = true.
Proof.
  unfold reconcileHumioAlert.
  destruct (DeletionTimestamp ha) as [ts|]; cbn -[humioFinalizer ContainsElement RemoveElement].
  - answers; cbn; intros Hc; by destruct Hc.
  - destruct (ContainsElement (Finalizers ha) humioFinalizer) eqn:E;
      cbn -[humioFinalizer ContainsElement]; [done|].
    answers; cbn; intros Hc; by destruct Hc.
Qed.

(** *** The deletion branch *)

(** The deletion branch of [reconcileHumioAlert], for an object with a
    deletion marker and the finalizer token: a failed remote delete is the
    only call and is returned under its label, the object is left as it
    was; after a successful remote delete the object without the token is
    written with [Update], the last call, whose answer is returned. *)
Lemma deletion_branch_run (env : Env) (h : list call) config ha req :
  DeletionTimestamp ha <> None ->
  ContainsElement (Finalizers ha) humioFinalizer = true ->
  let d := DeleteAlert config req ha in
  let ha' := SetFinalizers ha (RemoveElement (Finalizers ha) humioFinalizer) in
  (forall e, env h d = Some e ->
     run env h (reconcileHumioAlert config ha req) =
       ([d], (ha, Returned Result_zero
                    (Some (wrapError "Delete alert returned error" e))))) /\
  (env h d = None ->
     ContainsElement (Finalizers ha') humioFinalizer = false /\
     run env h (reconcileHumioAlert config ha req) =
       ([d; Update ha'],
        (ha', Returned Result_zero (env (h ++ [d]) (Update ha'))))).
Proof.
  intros Hdel Hfin. unfold reconcileHumioAlert.
  destruct (DeletionTimestamp ha) as [ts|]; [|done].
  cbn -[humioFinalizer ContainsElement RemoveElement]. rewrite Hfin.
  cbn -[humioFinalizer ContainsElement RemoveElement].
  split.
  - intros e He. by rewrite He.
  - intros He. rewrite He. cbn -[humioFinalizer ContainsElement RemoveElement].
    split; [apply ContainsElement_RemoveElement|].
    by destruct (env _ (Update _)).
Qed.

(** *** The finalizer-attachment branch *)

(** The attachment branch of [reconcileHumioAlert], for an object without
    a deletion marker whose finalizer list lacks the token: the only call is
    the [Update] of the object with the token attached; an accepted write
    gives the requeue, a refused one is returned as the error. *)
Lemma attach_branch_run (env : Env) (h : list call) config ha req :
  DeletionTimestamp ha = None ->
  ContainsElement (Finalizers ha) humioFinalizer = false ->
  let ha' := SetFinalizers ha (Finalizers ha ++ [humioFinalizer]) in
  run env h (reconcileHumioAlert config ha req) =
    ([Update ha'],
     (ha', match env h (Update ha') with
           | Some e => Returned Result_zero (Some e)
           | None => Returned Result_requeue None
           end)).
Proof.
  intros Hdel Hfin. unfold reconcileHumioAlert. rewrite Hdel.
  cbn -[humioFinalizer ContainsElement]. rewrite Hfin.
  cbn -[humioFinalizer ContainsElement].
  by destruct (env h (Update _)).
Qed.

(** *** The create branch *)

(** C5, as amended.  When the existence fetch fails with the not-found
    classification the pass calls [AddAlert]; a failed creation is returned
    as the error, without requeue; after a successful creation the pass
    runs the annotation fix-up, and returns a result with [Requeue] set and
    a nil error when the fix-up reports no error, the fix-up's own result
    and error otherwise; on none of these paths does it resolve action ids,
    transform, or update. *)
Theorem create_when_not_found (env : Env) (h : list call) config ha req :
  DeletionTimestamp ha = None ->
  ContainsElement (Finalizers ha) humioFinalizer = true ->
  errors_As_EntityNotFound (snd (env h (GetAlert config req ha))) = true ->
  let c1 := GetAlert config req ha in
  let c2 := AddAlert config req ha in
  let r := run env h (reconcileHumioAlert config ha req) in
  let added := env (h ++ [c1]) c2 in
  let c3 := reconcileHumioAlertAnnotations (fst added) ha req in
  let fixup := env ((h ++ [c1]) ++ [c2]) c3 in
  (forall e, snd added = Some e ->
     fst r = [c1; c2] /\
     exists res,
       snd (snd r) =
         Returned res (Some (wrapError "could not create alert" e)) /\
       Requeue res = false) /\
  (snd added = None ->
     fst r = [c1; c2; c3] /\
     (snd fixup = None ->
        exists res, snd (snd r) = Returned res None /\ Requeue res = true) /\
     (forall e, snd fixup = Some e ->
        snd (snd r) = Returned (fst fixup) (Some e))) /\
  count is_update (fst r) = 0 /\
  count is_remote_mutation (fst r) = 1.
Proof.
  intros Hdel Hfin Hnf. unfold reconcileHumioAlert. rewrite Hdel.
  cbn -[humioFinalizer ContainsElement]. rewrite Hfin.
  cbn -[humioFinalizer ContainsElement].
  destruct (env h (GetAlert config req ha)) as [cur err] eqn:E1.
  cbn in Hnf. rewrite Hnf. cbn.
  destruct (env (h ++ [GetAlert config req ha]) (AddAlert config req ha))
    as [added [e|]] eqn:E2; cbn.
  - split; [intros e' [= <-]; split; [done | by eexists]|].
    split; [done | split; reflexivity].
  - destruct (env _ (reconcileHumioAlertAnnotations _ _ _)) as [res [e|]] eqn:E3;
      cbn; (split; [done|]); (split; [|split; reflexivity]); intros _;
      (split; [done|]); split; try done;
      first [by intros ? [= <-] | by eexists].
Qed.

(** *** Drift detection *)

(** The update is issued exactly when the sanitized fetched alert is not
    the expected one. *)
Lemma update_iff_drift
    (env : Env) (h : list call) config ha req cur m expected :
  DeletionTimestamp ha = None ->
  ContainsElement (Finalizers ha) humioFinalizer = true ->
  let c1 := GetAlert config req ha in
  let c2 := GetActionIDsMapForAlerts config req ha in
  let c3 := AlertTransform ha m in
  env h c1 = (Some cur, None) ->
  env (h ++ [c1]) c2 = (m, None) ->
  env ((h ++ [c1]) ++ [c2]) c3 = (Some expected, None) ->
  let r := run env h (reconcileHumioAlert config ha req) in
  fst (snd r) = ha /\
  (sanitizeAlert cur = expected ->
     fst r = [c1; c2; c3] /\ snd (snd r) = Returned Result_zero None) /\
  (sanitizeAlert cur <> expected ->
     fst r = [c1; c2; c3; UpdateAlert config req ha]).
Proof.
  intros Hdel Hfin c1 c2 c3 E1 E2 E3. subst c1 c2 c3.
  unfold reconcileHumioAlert. rewrite Hdel.
  cbn -[humioFinalizer ContainsElement]. rewrite Hfin.
  cbn -[humioFinalizer ContainsElement sanitizeAlert DeepEqual].
  rewrite E1. cbn -[sanitizeAlert DeepEqual]. rewrite E2.
  cbn -[sanitizeAlert DeepEqual]. rewrite E3.
  cbn -[sanitizeAlert DeepEqual]. unfold DeepEqual.
  destruct (decide (sanitizeAlert cur = expected)) as [Heq|Hne].
  - rewrite bool_decide_eq_true_2 by done. cbn -[sanitizeAlert]. tauto.
  - rewrite bool_decide_eq_false_2 by done. cbn -[sanitizeAlert].
    destruct (env _ (UpdateAlert _ _ _)) as [a [e|]]; cbn -[sanitizeAlert]; tauto.
Qed.

Lemma sanitizeAlert_spec a b :
  sanitizeAlert a = b <-> differOnlyInServerManaged a b /\ serverManagedZero b.
Proof.
  unfold differOnlyInServerManaged, serverManagedZero, sanitizeAlert.
  destruct a, b; cbn. split.
  - intros [= <- <- <- <- <- <- <-]. done.
  - intros [(-> & -> & -> & ->) (-> & -> & ->)]. done.
Qed.

(** C7, as amended.  When the fetched alert differs from the transform of
    the object at most in the server-managed fields, and the transform's own
    server-managed fields hold their zero values, the pass issues no update;
    sanitization clears exactly the three server-managed fields of the
    fetched alert, and the comparison succeeds exactly when the two alerts
    agree elsewhere and the expected one has these fields at zero. *)
Theorem sanitization_exclusion
    (env : Env) (h : list call) config ha req cur m expected :
  DeletionTimestamp ha = None ->
  ContainsElement (Finalizers ha) humioFinalizer = true ->
  let c1 := GetAlert config req ha in
  let c2 := GetActionIDsMapForAlerts config req ha in
  let c3 := AlertTransform ha m in
  env h c1 = (Some cur, None) ->
  env (h ++ [c1]) c2 = (m, None) ->
  env ((h ++ [c1]) ++ [c2]) c3 = (Some expected, None) ->
  differOnlyInServerManaged cur expected ->
  serverManagedZero expected ->
  let r := run env h (reconcileHumioAlert config ha req) in
  count is_update (fst r) = 0 /\
  count is_remote_mutation (fst r) = 0 /\
  snd (snd r) = Returned Result_zero None /\
  serverManagedZero (sanitizeAlert cur) /\
  differOnlyInServerManaged cur (sanitizeAlert cur) /\
  (forall a b, DeepEqual (sanitizeAlert a) b = true <->
     differOnlyInServerManaged a b /\ serverManagedZero b).
Proof.
  intros Hdel Hfin c1 c2 c3 E1 E2 E3 Hdiff Hzero r.
  destruct (update_iff_drift env h config ha req cur m expected
              Hdel Hfin E1 E2 E3) as (_ & Hsame & _).
  destruct (Hsame (proj2 (sanitizeAlert_spec cur expected) (conj Hdiff Hzero)))
    as [Ht Hout].
  subst r. rewrite Ht, Hout.
  do 3 (split; [done|]).
  split; [by apply (sanitizeAlert_spec cur (sanitizeAlert cur))|].
  split; [by apply (sanitizeAlert_spec cur (sanitizeAlert cur))|].
  intros a b. unfold DeepEqual. rewrite bool_decide_eq_true.
  apply sanitizeAlert_spec.
Qed.

(** *** The status refresh and [Reconcile] *)

Lemma statusRefresh_run (env : Env) (h : list call) config req ha :
  let c := GetAlert config req ha in
  let st := refreshedState (env h c) in
  let r := run env h (statusRefresh config req ha) in
  StatusState (snd r) = st /\
  snd r = SetStatusState ha st /\
  (fst r = [c] \/ fst r = [c; StatusUpdate (SetStatusState ha st)]) /\
  (StatusState ha = st -> fst r = [c]) /\
  (StatusState ha <> st -> fst r = [c; StatusUpdate (SetStatusState ha st)]).
Proof.
  unfold statusRefresh, setState. cbn.
  destruct (env h (GetAlert config req ha)) as [[cur|] [e|]]; cbn;
    try destruct (As_EntityNotFound e); cbn;
    match goal with |- context [String.eqb ?a ?b] =>
      destruct (String.eqb_spec a b) as [Heq|Hne] end; cbn;
    repeat split; auto; try done; destruct ha; cbn in *; by subst.
Qed.

Lemma Reconcile_run (env : Env) rNamespace req ha cluster err config :
  negb (String.eqb rNamespace "") &&
    negb (String.eqb rNamespace (ReqNamespace req)) = false ->
  let c0 := Get req in
  let c1 := NewCluster (ManagedClusterName (Spec ha))
              (ExternalClusterName (Spec ha)) (Namespace ha) in
  env [] c0 = (ha, None) ->
  env [c0] c1 = (cluster, err) ->
  noUsableConfig cluster err = false ->
  configOf cluster = Some config ->
  let r1 := run env [c0; c1] (reconcileHumioAlert config ha req) in
  let r2 := run env ([c0; c1] ++ fst r1)
              (statusRefresh config req (fst (snd r1))) in
  run env [] (Reconcile rNamespace req) =
    ([c0; c1] ++ fst r1 ++ fst r2, snd (snd r1)).
Proof.
  intros Hscope c0 c1 E0 E1 Hok Hcfg r1 r2. subst c0 c1.
  unfold Reconcile. rewrite Hscope.
  cbn -[reconcileHumioAlert statusRefresh noUsableConfig configOf].
  rewrite E0. cbn -[reconcileHumioAlert statusRefresh noUsableConfig configOf].
  rewrite E1. cbn -[reconcileHumioAlert statusRefresh noUsableConfig configOf].
  rewrite Hok, Hcfg. rewrite run_bind.
  cbn -[reconcileHumioAlert statusRefresh].
  destruct (run env _ (reconcileHumioAlert config ha req)) as [t1 [ha1 out]] eqn:R1.
  subst r1 r2. cbn -[reconcileHumioAlert statusRefresh].
  rewrite run_bind. cbn -[reconcileHumioAlert statusRefresh].
  by rewrite app_nil_r.
Qed.

Lemma statusRefresh_counts (env : Env) (h : list call) config req ha :
  let t := fst (run env h (statusRefresh config req ha)) in
  count is_remote_mutation t = 0 /\ count is_create t = 0 /\
  count is_update t = 0 /\ count is_delete t = 0 /\
  count is_finalizer_write t = 0 /\ count is_status_write t <= 1 /\
  List.filter is_remote t = [GetAlert config req ha].
Proof.
  intros t. subst t.
  destruct (statusRefresh_run env h config req ha) as (_ & _ & [Ht|Ht] & _);
    rewrite Ht; cbn; repeat split; lia.
Qed.

Lemma reconcileHumioAlert_kinds (env : Env) (h : list call) config ha req :
  let t := fst (run env h (reconcileHumioAlert config ha req)) in
  count is_create t + count is_update t + count is_delete t <= 1.
Proof.
  unfold reconcileHumioAlert. answers; cbn; lia.
Qed.

(** C6.  At most one remote-mutating call per pass.  In every run of
    [reconcileHumioAlert], whatever the environment answers, the trace holds
    at most one remote create, update or delete in total, at most one
    [Update] of the object (the finalizer-list write) and no status write;
    in every run of the enclosing [Reconcile] it holds at most one remote
    create, update or delete in total, at most one status write and at most
    one [Update] of the object. *)
Theorem at_most_one_mutation_per_pass :
  (forall (env : Env) (h : list call) config ha req,
     let t := fst (run env h (reconcileHumioAlert config ha req)) in
     count is_remote_mutation t <= 1 /\
     count is_create t + count is_update t + count is_delete t <= 1 /\
     count is_finalizer_write t <= 1 /\
     count is_status_write t = 0) /\
  (forall (env : Env) rNamespace req,
     let t := fst (run env [] (Reconcile rNamespace req)) in
     count is_remote_mutation t <= 1 /\
     count is_create t + count is_update t + count is_delete t <= 1 /\
     count is_status_write t <= 1 /\
     count is_finalizer_write t <= 1).
Proof.
  split.
  - intros env h config ha req t. subst t.
    pose proof (reconcileHumioAlert_counts env h config ha req) as (H1 & H2 & H3).
    pose proof (reconcileHumioAlert_kinds env h config ha req) as H4.
    cbn in *. auto.
  - intros env rNamespace req t. subst t. unfold Reconcile.
    destruct (negb _ && negb _); [cbn; lia|].
    cbn -[reconcileHumioAlert statusRefresh noUsableConfig configOf setState].
    destruct (env [] (Get req)) as [ha [e|]];
      cbn -[reconcileHumioAlert statusRefresh noUsableConfig configOf setState].
    { destruct (IsNotFound e); cbn; lia. }
    destruct (env _ (NewCluster _ _ _)) as [cluster err].
    destruct (noUsableConfig cluster err).
    { rewrite run_bind.
      destruct (setState_trace env
                  [Get req; NewCluster (ManagedClusterName (Spec ha))
                     (ExternalClusterName (Spec ha)) (Namespace ha)]
                  HumioAlertStateConfigError ha) as [Ht|Ht];
        cbn -[setState] in Ht |- *; rewrite Ht;
        destruct (run env _ (setState _ _)) as [t [ha' [e|]]]; cbn; lia. }
    destruct (configOf cluster) as [config|]; [|cbn; lia].
    rewrite run_bind. cbn -[reconcileHumioAlert statusRefresh].
    match goal with |- context [run env ?h0 (reconcileHumioAlert config ha req)] =>
      pose proof (reconcileHumioAlert_counts env h0 config ha req) as (H1 & H2 & H3);
      pose proof (reconcileHumioAlert_kinds env h0 config ha req) as H4;
      destruct (run env h0 (reconcileHumioAlert config ha req)) as [t1 [ha1 out]]
    end.
    cbn -[statusRefresh] in *. rewrite run_bind. cbn -[statusRefresh].
    match goal with |- context [run env ?h1 (statusRefresh config req ha1)] =>
      pose proof (statusRefresh_counts env h1 config req ha1)
        as (R1 & R2 & R3 & R4 & R5 & R6 & _)
    end.
    cbn -[statusRefresh] in *. rewrite app_nil_r.
    unfold count in *. rewrite !List.filter_app, !length_app. lia.
Qed.

(** C9.  The deferred status refresh.  Once the configuration is resolved,
    [Reconcile] runs [reconcileHumioAlert] and then the refresh, on every way
    out of the former: the refresh fetches the alert again and leaves the
    status at [NotFound] when the fetch reports the resource absent, at
    [ConfigError] when the fetch fails otherwise or returns nothing, at
    [Exists] when it succeeds; it writes the status exactly when that value
    is new; and whatever the fetch and the status write answer, [Reconcile]
    leaves the way [reconcileHumioAlert] left, with the same directive and
    the same error. *)
Theorem status_refresh_is_diagnostic
    (env : Env) rNamespace req ha cluster err config :
  negb (String.eqb rNamespace "") &&
    negb (String.eqb rNamespace (ReqNamespace req)) = false ->
  let c0 := Get req in
  let c1 := NewCluster (ManagedClusterName (Spec ha))
              (ExternalClusterName (Spec ha)) (Namespace ha) in
  env [] c0 = (ha, None) ->
  env [c0] c1 = (cluster, err) ->
  noUsableConfig cluster err = false ->
  configOf cluster = Some config ->
  let r1 := run env [c0; c1] (reconcileHumioAlert config ha req) in
  let ha1 := fst (snd r1) in
  let fetch := GetAlert config req ha1 in
  let answer := env ([c0; c1] ++ fst r1) fetch in
  let st := refreshedState answer in
  let r2 := run env ([c0; c1] ++ fst r1) (statusRefresh config req ha1) in
  let r := run env [] (Reconcile rNamespace req) in
  snd r = snd (snd r1) /\
  fst r = [c0; c1] ++ fst r1 ++ fst r2 /\
  StatusState (snd r2) = st /\
  (StatusState ha1 = st -> fst r2 = [fetch]) /\
  (StatusState ha1 <> st ->
     fst r2 = [fetch; StatusUpdate (SetStatusState ha1 st)]) /\
  (errors_As_EntityNotFound (snd answer) = true ->
     st = HumioAlertStateNotFound) /\
  (errors_As_EntityNotFound (snd answer) = false ->
     snd answer <> None \/ fst answer = None ->
     st = HumioAlertStateConfigError) /\
  (snd answer = None -> fst answer <> None -> st = HumioAlertStateExists).
Proof.
  intros Hscope c0 c1 E0 E1 Hok Hcfg r1 ha1 fetch answer st r2 r.
  pose proof (Reconcile_run env rNamespace req ha cluster err config
                Hscope E0 E1 Hok Hcfg) as HR.
  cbv zeta in HR. subst r. rewrite HR.
  destruct (statusRefresh_run env ([c0; c1] ++ fst r1) config req ha1)
    as (Hst & _ & _ & Hsame & Hnew).
  do 5 (split; [done|]).
  subst st. destruct answer as [[a|] [e|]]; cbn;
    try destruct (As_EntityNotFound e);
    (split; [|split]); intros; try done; intuition congruence.
Qed.

(** *** The already-deleted object *)

(** C8, as amended.  For an object with a deletion marker whose finalizer
    list lacks the token, [reconcileHumioAlert] makes no call at all and
    returns the terminal no-op; the enclosing [Reconcile] returns that same
    no-op and makes no remote create, update or delete, and its deferred
    status refresh makes exactly one remote call, the fetch [GetAlert]. *)
Theorem noop_on_already_deleted
    (env : Env) rNamespace req ha cluster err config :
  DeletionTimestamp ha <> None ->
  ContainsElement (Finalizers ha) humioFinalizer = false ->
  (forall h,
     run env h (reconcileHumioAlert config ha req) =
       ([], (ha, Returned Result_zero None))) /\
  (negb (String.eqb rNamespace "") &&
     negb (String.eqb rNamespace (ReqNamespace req)) = false ->
   let c0 := Get req in
   let c1 := NewCluster (ManagedClusterName (Spec ha))
               (ExternalClusterName (Spec ha)) (Namespace ha) in
   env [] c0 = (ha, None) ->
   env [c0] c1 = (cluster, err) ->
   noUsableConfig cluster err = false ->
   configOf cluster = Some config ->
   let r := run env [] (Reconcile rNamespace req) in
   snd r = Returned Result_zero None /\
   count is_remote_mutation (fst r) = 0 /\
   List.filter is_remote (fst r) = [GetAlert config req ha] /\
   count is_remote (fst r) = 1).
Proof.
  intros Hdel Hfin.
  assert (Hcore : forall h,
    run env h (reconcileHumioAlert config ha req) =
      ([], (ha, Returned Result_zero None))).
  { intros h. unfold reconcileHumioAlert.
    destruct (DeletionTimestamp ha); [|done].
    cbn -[humioFinalizer ContainsElement]. by rewrite Hfin. }
  split; [exact Hcore|].
  intros Hscope c0 c1 E0 E1 Hok Hcfg r.
  pose proof (Reconcile_run env rNamespace req ha cluster err config
                Hscope E0 E1 Hok Hcfg) as HR.
  cbv zeta in HR. subst r. rewrite HR. rewrite Hcore.
  cbn -[statusRefresh].
  pose proof (statusRefresh_counts env [c0; c1] config req ha)
    as (R1 & _ & _ & _ & _ & _ & R7).
  cbv zeta in R1, R7. unfold count in *. subst c0 c1.
  rewrite R7. cbn -[statusRefresh]. by rewrite R1.
Qed.

(** *** The configuration-error exit *)

(** Every way out of [Reconcile] when no usable configuration is obtained:
    the object's status becomes [ConfigError], and the error returned is
    either nil or the wrapped error of the status write.  The error of the
    resolution itself is never returned. *)
Lemma Reconcile_no_config (env : Env) rNamespace req ha cluster err :
  negb (String.eqb rNamespace "") &&
    negb (String.eqb rNamespace (ReqNamespace req)) = false ->
  let c0 := Get req in
  let c1 := NewCluster (ManagedClusterName (Spec ha))
              (ExternalClusterName (Spec ha)) (Namespace ha) in
  env [] c0 = (ha, None) ->
  env [c0] c1 = (cluster, err) ->
  noUsableConfig cluster err = true ->
  let r := run env [] (Reconcile rNamespace req) in
  let w := StatusUpdate (SetStatusState ha HumioAlertStateConfigError) in
  (StatusState ha = HumioAlertStateConfigError ->
     r = ([c0; c1], Returned Result_zero None)) /\
  (StatusState ha <> HumioAlertStateConfigError ->
     fst r = [c0; c1; w] /\
     (env [c0; c1] w = None -> snd r = Returned Result_zero None) /\
     (forall e, env [c0; c1] w = Some e ->
        snd r = Returned Result_zero
                  (Some (wrapError "unable to set alert state" e)))).
Proof.
  intros Hscope c0 c1 E0 E1 Hbad. subst c0 c1. unfold Reconcile.
  rewrite Hscope. cbn -[noUsableConfig setState].
  rewrite E0. cbn -[noUsableConfig setState].
  rewrite E1. cbn -[noUsableConfig setState]. rewrite Hbad.
  unfold setState.
  destruct (String.eqb_spec (StatusState ha) HumioAlertStateConfigError)
    as [Heq|Hne]; cbn.
  - split; [done|]. by intros [].
  - split; [by intros ?|]. intros _.
    destruct (env _ (StatusUpdate _)) as [e|]; cbn;
      repeat split; try done; by intros ? [= <-].
Qed.

(** *** The pass as a whole: [reconcileHumioAlert], then the refresh *)

(** What the deferred refresh adds to the calls of [reconcileHumioAlert]:
    one fetch, after them, and neither a remote create, update or delete
    nor a write of the object. *)
Lemma Reconcile_pass_then_refresh
    (env : Env) rNamespace req ha cluster err config :
  negb (String.eqb rNamespace "") &&
    negb (String.eqb rNamespace (ReqNamespace req)) = false ->
  let c0 := Get req in
  let c1 := NewCluster (ManagedClusterName (Spec ha))
              (ExternalClusterName (Spec ha)) (Namespace ha) in
  env [] c0 = (ha, None) ->
  env [c0] c1 = (cluster, err) ->
  noUsableConfig cluster err = false ->
  configOf cluster = Some config ->
  let r1 := run env [c0; c1] (reconcileHumioAlert config ha req) in
  let r := run env [] (Reconcile rNamespace req) in
  snd r = snd (snd r1) /\
  List.filter is_remote (fst r) =
    List.filter is_remote (fst r1) ++ [GetAlert config req (fst (snd r1))] /\
  List.filter is_remote_mutation (fst r) =
    List.filter is_remote_mutation (fst r1) /\
  List.filter is_finalizer_write (fst r) =
    List.filter is_finalizer_write (fst r1).
Proof.
  intros Hscope c0 c1 E0 E1 Hok Hcfg r1 r.
  pose proof (Reconcile_run env rNamespace req ha cluster err config
                Hscope E0 E1 Hok Hcfg) as HR.
  cbv zeta in HR. subst r r1 c0 c1. rewrite HR. clear HR.
  match goal with |- context [run env ?h1 (statusRefresh config req ?ha1)] =>
    pose proof (statusRefresh_counts env h1 config req ha1)
      as (R1 & _ & _ & _ & R5 & _ & R7)
  end.
  cbv zeta in R1, R5, R7. unfold count in R1, R5.
  apply length_zero_iff_nil in R1. apply length_zero_iff_nil in R5.
  cbn [fst snd]. rewrite !List.filter_app, R1, R5, R7, !app_nil_r. done.
Qed.

Lemma Reconcile_create_needs_stored_finalizer (env : Env) rNamespace req :
  count is_create (fst (run env [] (Reconcile rNamespace req))) <> 0 ->
  let ha := fst (env [] (Get req)) in
  snd (env [] (Get req)) = None /\
  DeletionTimestamp ha = None /\
  ContainsElement (Finalizers ha) humioFinalizer = true.
Proof.
  unfold Reconcile.
  destruct (negb _ && negb _) eqn:Hscope; [by intros Hc; destruct Hc|].
  cbn -[reconcileHumioAlert statusRefresh noUsableConfig configOf setState].
  destruct (env [] (Get req)) as [ha [e|]] eqn:E0;
    cbn -[reconcileHumioAlert statusRefresh noUsableConfig configOf setState].
  { destruct (IsNotFound e); cbn; by intros Hc; destruct Hc. }
  destruct (env _ (NewCluster _ _ _)) as [cluster err] eqn:E1.
  destruct (noUsableConfig cluster err) eqn:Hok.
  { rewrite run_bind.
    match goal with |- context [run env ?h0 (setState ?st ha)] =>
      destruct (setState_trace env h0 st ha) as [Ht|Ht]; rewrite Ht;
      destruct (run env h0 (setState st ha)) as [t [ha' [e|]]]
    end; cbn; by intros Hc; destruct Hc. }
  destruct (configOf cluster) as [config|] eqn:Hcfg;
    [|cbn; by intros Hc; destruct Hc].
  rewrite run_bind. cbn -[reconcileHumioAlert statusRefresh].
  match goal with |- context [run env ?h0 (reconcileHumioAlert config ha req)] =>
    pose proof (reconcileHumioAlert_create_needs_finalizer env h0 config ha req)
      as Hcore;
    destruct (run env h0 (reconcileHumioAlert config ha req))
      as [t1 [ha1 out]]
  end.
  cbn -[statusRefresh] in *. rewrite run_bind. cbn -[statusRefresh].
  match goal with |- context [run env ?h1 (statusRefresh config req ha1)] =>
    pose proof (statusRefresh_counts env h1 config req ha1)
      as (_ & R2 & _)
  end.
  cbv zeta in R2. rewrite app_nil_r. unfold count in *.
  rewrite List.filter_app, length_app. rewrite R2.
  intros Hc. split; [done|]. apply Hcore. lia.
Qed.

(** C2, as amended.  Delete-before-unfinalize, for an object with a
    deletion marker and the finalizer token.  When the remote delete fails,
    the pass returns that error under its label, writes no finalizer list,
    and the object keeps the token.  When the remote delete succeeds, the
    token is removed from the object and the object is written with
    [Update]; the pass returns nil when that write is accepted and the
    error of the write when it is refused; the delete is the only remote
    create, update or delete.  In both cases [reconcileHumioAlert] makes no
    remote call after the delete, and the pass makes exactly one, the fetch
    of the deferred status refresh. *)
Theorem delete_before_unfinalize
    (env : Env) rNamespace req ha cluster err config :
  DeletionTimestamp ha <> None ->
  ContainsElement (Finalizers ha) humioFinalizer = true ->
  negb (String.eqb rNamespace "") &&
    negb (String.eqb rNamespace (ReqNamespace req)) = false ->
  let c0 := Get req in
  let c1 := NewCluster (ManagedClusterName (Spec ha))
              (ExternalClusterName (Spec ha)) (Namespace ha) in
  env [] c0 = (ha, None) ->
  env [c0] c1 = (cluster, err) ->
  noUsableConfig cluster err = false ->
  configOf cluster = Some config ->
  let d := DeleteAlert config req ha in
  let ha' := SetFinalizers ha (RemoveElement (Finalizers ha) humioFinalizer) in
  let w := Update ha' in
  let r1 := run env [c0; c1] (reconcileHumioAlert config ha req) in
  let r := run env [] (Reconcile rNamespace req) in
  (forall e, env [c0; c1] d = Some e ->
     r1 = ([d], (ha, Returned Result_zero
                       (Some (wrapError "Delete alert returned error" e)))) /\
     snd r = Returned Result_zero
               (Some (wrapError "Delete alert returned error" e)) /\
     List.filter is_finalizer_write (fst r) = [] /\
     List.filter is_remote (fst r) = [d; GetAlert config req ha]) /\
  (env [c0; c1] d = None ->
     ContainsElement (Finalizers ha') humioFinalizer = false /\
     fst r1 = [d; w] /\
     fst (snd r1) = ha' /\
     List.filter is_finalizer_write (fst r) = [w] /\
     List.filter is_remote_mutation (fst r) = [d] /\
     List.filter is_remote (fst r) = [d; GetAlert config req ha'] /\
     (env [c0; c1; d] w = None -> snd r = Returned Result_zero None) /\
     (forall e, env [c0; c1; d] w = Some e ->
        snd r = Returned Result_zero (Some e))).
Proof.
  intros Hdel Hfin Hscope c0 c1 E0 E1 Hok Hcfg d ha' w r1 r.
  destruct (Reconcile_pass_then_refresh env rNamespace req ha cluster err
              config Hscope E0 E1 Hok Hcfg) as (Hout & Hrem & Hmut & Hfw).
  destruct (deletion_branch_run env [c0; c1] config ha req Hdel Hfin)
    as [Hfail Hdone].
  fold c0 c1 r1 in Hout, Hrem, Hmut, Hfw. fold r in Hout, Hrem, Hmut, Hfw.
  fold c0 c1 d ha' w r1 in Hfail, Hdone.
  split.
  - intros e He. specialize (Hfail e He).
    rewrite Hout, Hfw, Hrem, Hfail. done.
  - intros He. destruct (Hdone He) as (Hgone & R1).
    change ([c0; c1] ++ [d]) with [c0; c1; d] in R1.
    rewrite Hout, Hfw, Hrem, Hmut, R1. cbn [fst snd].
    split; [done|]. do 5 (split; [done|]).
    split; [by intros ->|]. by intros e ->.
Qed.

(** C3, as amended.  Finalizer-before-mutation, for an object without a
    deletion marker whose finalizer list lacks the token.  The pass
    attaches the token and writes the object with [Update], its only write;
    it makes no remote create, update or delete, its only remote call
    being the fetch of the deferred status refresh.  When the write is
    accepted it returns a result with [Requeue] set and a nil error; when
    the write is refused it returns the error of the write and no requeue.
    And a pass makes a remote create only on an object that it read with the
    token already attached and without deletion marker. *)
Theorem finalizer_before_mutation
    (env : Env) rNamespace req ha cluster err config :
  DeletionTimestamp ha = None ->
  ContainsElement (Finalizers ha) humioFinalizer = false ->
  negb (String.eqb rNamespace "") &&
    negb (String.eqb rNamespace (ReqNamespace req)) = false ->
  let c0 := Get req in
  let c1 := NewCluster (ManagedClusterName (Spec ha))
              (ExternalClusterName (Spec ha)) (Namespace ha) in
  env [] c0 = (ha, None) ->
  env [c0] c1 = (cluster, err) ->
  noUsableConfig cluster err = false ->
  configOf cluster = Some config ->
  let ha' := SetFinalizers ha (Finalizers ha ++ [humioFinalizer]) in
  let w := Update ha' in
  let r1 := run env [c0; c1] (reconcileHumioAlert config ha req) in
  let r := run env [] (Reconcile rNamespace req) in
  ContainsElement (Finalizers ha') humioFinalizer = true /\
  fst r1 = [w] /\
  fst (snd r1) = ha' /\
  List.filter is_finalizer_write (fst r) = [w] /\
  List.filter is_remote_mutation (fst r) = [] /\
  List.filter is_remote (fst r) = [GetAlert config req ha'] /\
  (env [c0; c1] w = None ->
     exists res, snd r = Returned res None /\ Requeue res = true) /\
  (forall e, env [c0; c1] w = Some e ->
     exists res, snd r = Returned res (Some e) /\ Requeue res = false) /\
  (forall (env2 : Env) rNamespace2 req2,
     count is_create (fst (run env2 [] (Reconcile rNamespace2 req2))) <> 0 ->
     snd (env2 [] (Get req2)) = None /\
     DeletionTimestamp (fst (env2 [] (Get req2))) = None /\
     ContainsElement (Finalizers (fst (env2 [] (Get req2)))) humioFinalizer
       = true) /\
  (forall (env2 : Env) h2 config2 ha2 req2,
     count is_create
       (fst (run env2 h2 (reconcileHumioAlert config2 ha2 req2))) <> 0 ->
     DeletionTimestamp ha2 = None /\
     ContainsElement (Finalizers ha2) humioFinalizer = true).
Proof.
  intros Hdel Hfin Hscope c0 c1 E0 E1 Hok Hcfg ha' w r1 r.
  destruct (Reconcile_pass_then_refresh env rNamespace req ha cluster err
              config Hscope E0 E1 Hok Hcfg) as (Hout & Hrem & Hmut & Hfw).
  pose proof (attach_branch_run env [c0; c1] config ha req Hdel Hfin) as R1.
  cbv zeta in R1. subst r r1 w ha' c0 c1.
  rewrite Hout, Hrem, Hmut, Hfw, R1. cbn [fst snd].
  split; [apply ContainsElement_attach|].
  do 5 (split; [done|]).
  split; [intros ->; by eexists|].
  split; [intros e ->; by eexists|].
  split.
  - intros env2 ns2 req2. apply Reconcile_create_needs_stored_finalizer.
  - intros env2 h2 config2 ha2 req2.
    apply reconcileHumioAlert_create_needs_finalizer.
Qed.

(** C4, as amended.  Idempotence.  When the sanitized fetched alert equals
    the transform of the object under the resolved action ids,
    [reconcileHumioAlert] makes its three reads and returns the terminal
    no-op with the object as it was, and the pass makes no remote create,
    update or delete.  The status is left as it is, without a status write,
    when it already is the value the deferred refresh computes from its own
    fetch ([Exists] when that fetch succeeds); otherwise the refresh writes
    that value, as the last call of the pass.  [setState] with the state the
    object already has writes nothing and returns nil. *)
Theorem idempotent_when_equal
    (env : Env) rNamespace req ha cluster err config cur m expected :
  DeletionTimestamp ha = None ->
  ContainsElement (Finalizers ha) humioFinalizer = true ->
  negb (String.eqb rNamespace "") &&
    negb (String.eqb rNamespace (ReqNamespace req)) = false ->
  let c0 := Get req in
  let c1 := NewCluster (ManagedClusterName (Spec ha))
              (ExternalClusterName (Spec ha)) (Namespace ha) in
  env [] c0 = (ha, None) ->
  env [c0] c1 = (cluster, err) ->
  noUsableConfig cluster err = false ->
  configOf cluster = Some config ->
  let g1 := GetAlert config req ha in
  let g2 := GetActionIDsMapForAlerts config req ha in
  let g3 := AlertTransform ha m in
  env [c0; c1] g1 = (Some cur, None) ->
  env [c0; c1; g1] g2 = (m, None) ->
  env [c0; c1; g1; g2] g3 = (Some expected, None) ->
  sanitizeAlert cur = expected ->
  let r := run env [] (Reconcile rNamespace req) in
  let st := refreshedState (env [c0; c1; g1; g2; g3] g1) in
  run env [c0; c1] (reconcileHumioAlert config ha req) =
    ([g1; g2; g3], (ha, Returned Result_zero None)) /\
  snd r = Returned Result_zero None /\
  count is_remote_mutation (fst r) = 0 /\
  (StatusState ha = st ->
     fst r = [c0; c1; g1; g2; g3; g1] /\ count is_status_write (fst r) = 0) /\
  (StatusState ha <> st ->
     fst r = [c0; c1; g1; g2; g3; g1; StatusUpdate (SetStatusState ha st)] /\
     count is_status_write (fst r) = 1) /\
  (snd (env [c0; c1; g1; g2; g3] g1) = None ->
   fst (env [c0; c1; g1; g2; g3] g1) <> None ->
     st = HumioAlertStateExists) /\
  (forall (env' : Env) h' ha',
     run env' h' (setState (StatusState ha') ha') = ([], (ha', None))).
Proof.
  intros Hdel Hfin Hscope c0 c1 E0 E1 Hok Hcfg g1 g2 g3 G1 G2 G3 Heq r st.
  destruct (update_iff_drift env [c0; c1] config ha req cur m expected
              Hdel Hfin G1 G2 G3) as (Hha & Hsame & _).
  destruct (Hsame Heq) as [Ht Hout]. fold g1 g2 g3 in Ht.
  assert (R1 : run env [c0; c1] (reconcileHumioAlert config ha req) =
               ([g1; g2; g3], (ha, Returned Result_zero None))).
  { destruct (run env [c0; c1] (reconcileHumioAlert config ha req))
      as [t1 [ha1 out1]]. cbn in Hha, Ht, Hout. by subst. }
  pose proof (Reconcile_run env rNamespace req ha cluster err config
                Hscope E0 E1 Hok Hcfg) as HR.
  cbv zeta in HR. fold c0 c1 in HR. rewrite R1 in HR. cbn [fst snd] in HR.
  destruct (statusRefresh_run env ([c0; c1] ++ [g1; g2; g3]) config req ha)
    as (_ & _ & _ & Hskip & Hwrite).
  fold g1 in Hskip, Hwrite.
  change ([c0; c1] ++ [g1; g2; g3]) with [c0; c1; g1; g2; g3] in *.
  fold st in Hskip, Hwrite.
  split; [done|]. subst r. rewrite HR. cbn [fst snd].
  split; [done|].
  split.
  { unfold count. rewrite !List.filter_app.
    pose proof (statusRefresh_counts env [c0; c1; g1; g2; g3] config req ha)
      as (R & _). cbv zeta in R. unfold count in R.
    apply length_zero_iff_nil in R. rewrite R. subst c0 c1 g1 g2 g3. done. }
  split; [intros Hst; rewrite (Hskip Hst); subst c0 c1 g1 g2 g3; done|].
  split; [intros Hst; rewrite (Hwrite Hst); subst c0 c1 g1 g2 g3; done|].
  split.
  - subst st. destruct (env [c0; c1; g1; g2; g3] g1) as [[a|] [e|]]; cbn;
      intros; done.
  - intros env' h' ha'. unfold setState. by rewrite String.eqb_refl.
Qed.

(** *** Further properties of [Reconcile] *)

Ltac normalise_histories :=
  repeat match goal with
  | H : context [(_ ++ _) ++ _] |- _ => rewrite <- app_assoc in H; cbn [app] in H
  | |- context [(_ ++ _) ++ _] => rewrite <- app_assoc; cbn [app]
  end.

(** X1.  [Reconcile] touches the remote service, or writes the object,
    only for a request in its scope, whose object it could read, and for
    which a usable configuration was obtained. *)
Theorem Reconcile_acts_only_with_config (env : Env) rNamespace req :
  let t := fst (run env [] (Reconcile rNamespace req)) in
  let ha := fst (env [] (Get req)) in
  let c1 := NewCluster (ManagedClusterName (Spec ha))
              (ExternalClusterName (Spec ha)) (Namespace ha) in
  count is_remote t <> 0 \/ count is_finalizer_write t <> 0 ->
  (rNamespace = "" \/ rNamespace = ReqNamespace req) /\
  snd (env [] (Get req)) = None /\
  noUsableConfig (fst (env [Get req] c1)) (snd (env [Get req] c1)) = false.
Proof.
  intros t ha c1. subst t ha c1. unfold Reconcile.
  destruct (String.eqb_spec rNamespace "") as [Hns|Hns];
    destruct (String.eqb_spec rNamespace (ReqNamespace req)) as [Hrq|Hrq];
    cbn -[reconcileHumioAlert statusRefresh noUsableConfig configOf setState];
    try (intros [Hc|Hc]; by destruct Hc);
    (destruct (env [] (Get req)) as [ha [e|]];
     cbn -[reconcileHumioAlert statusRefresh noUsableConfig configOf setState];
     [destruct (IsNotFound e); cbn; intros [Hc|Hc]; by destruct Hc|]);
    (destruct (env _ (NewCluster _ _ _)) as [cluster err];
     cbn -[reconcileHumioAlert statusRefresh noUsableConfig configOf setState];
     destruct (noUsableConfig cluster err); [|by auto]);
    rewrite run_bind;
    (match goal with |- context [run env ?h0 (setState ?st ha)] =>
       destruct (setState_trace env h0 st ha) as [Ht|Ht];
       rewrite Ht;
       destruct (run env h0 (setState st ha)) as [t [ha' [e|]]]
     end);
    cbn; intros [Hc|Hc]; by destruct Hc.
Qed.

(** X2.  When the object of an in-scope request cannot be read,
    [Reconcile] makes no other call; a not-found failure ends the pass
    without error and without requeue, any other failure is returned as it
    is. *)
Theorem Reconcile_object_unreadable (env : Env) rNamespace req e :
  rNamespace = "" \/ rNamespace = ReqNamespace req ->
  snd (env [] (Get req)) = Some e ->
  let r := run env [] (Reconcile rNamespace req) in
  fst r = [Get req] /\
  (IsNotFound e = true -> snd r = Returned Result_zero None) /\
  (IsNotFound e = false -> snd r = Returned Result_zero (Some e)).
Proof.
  intros Hscope He. unfold Reconcile.
  assert (negb (String.eqb rNamespace "") &&
          negb (String.eqb rNamespace (ReqNamespace req)) = false) as ->.
  { destruct Hscope as [->| ->]; rewrite ?String.eqb_refl; cbn;
      [done | by rewrite andb_false_r]. }
  cbn -[reconcileHumioAlert statusRefresh noUsableConfig configOf setState].
  destruct (env [] (Get req)) as [ha err]. cbn in He. subst err.
  cbn. destruct (IsNotFound e); cbn; repeat split; congruence.
Qed.

(** *** Further properties of [reconcileHumioAlert] *)

(** X3.  A failure of the existence fetch that is not classified not-found
    ends the pass: no other call is made and the failure is returned under
    the label of the check. *)
Theorem fetch_failure_is_reported
    (env : Env) (h : list call) config ha req e :
  DeletionTimestamp ha = None ->
  ContainsElement (Finalizers ha) humioFinalizer = true ->
  snd (env h (GetAlert config req ha)) = Some e ->
  As_EntityNotFound e = false ->
  run env h (reconcileHumioAlert config ha req) =
    ([GetAlert config req ha],
     (ha, Returned Result_zero
            (Some (wrapError "could not check if alert exists" e)))).
Proof.
  intros Hdel Hfin He Hnf. unfold reconcileHumioAlert. rewrite Hdel.
  cbn -[humioFinalizer ContainsElement]. rewrite Hfin.
  cbn -[humioFinalizer ContainsElement].
  destruct (env h (GetAlert config req ha)) as [cur err]. cbn in He.
  subst err. cbn. by rewrite Hnf.
Qed.

(** X4.  Once the alert is fetched, a failure to resolve the action ids,
    or a failure of the transform, ends the pass before any comparison: the
    failure is returned under its label and no update is issued. *)
Theorem resolution_failure_blocks_update
    (env : Env) (h : list call) config ha req cur :
  DeletionTimestamp ha = None ->
  ContainsElement (Finalizers ha) humioFinalizer = true ->
  let c1 := GetAlert config req ha in
  let c2 := GetActionIDsMapForAlerts config req ha in
  env h c1 = (cur, None) ->
  let r := run env h (reconcileHumioAlert config ha req) in
  let ids := env (h ++ [c1]) c2 in
  let c3 := AlertTransform ha (fst ids) in
  (forall e, snd ids = Some e ->
     fst r = [c1; c2] /\
     snd (snd r) =
       Returned Result_zero
         (Some (wrapError "could not get action id mapping" e))) /\
  (forall e, snd ids = None ->
     snd (env ((h ++ [c1]) ++ [c2]) c3) = Some e ->
     fst r = [c1; c2; c3] /\
     snd (snd r) =
       Returned Result_zero
         (Some (wrapError "could not parse expected Alert" e))).
Proof.
  intros Hdel Hfin c1 c2 E1. subst c1 c2. unfold reconcileHumioAlert.
  rewrite Hdel. cbn -[humioFinalizer ContainsElement]. rewrite Hfin.
  cbn -[humioFinalizer ContainsElement sanitizeAlert DeepEqual].
  rewrite E1. cbn -[sanitizeAlert DeepEqual].
  destruct (env (h ++ [GetAlert config req ha])
              (GetActionIDsMapForAlerts config req ha)) as [m [e1|]];
    cbn -[sanitizeAlert DeepEqual].
  - split; [by intros e [= <-] | by intros e ?].
  - split; [by intros e ?|]. intros e _ He.
    destruct (env _ (AlertTransform ha m)) as [expected err]. cbn in He.
    subst err. done.
Qed.

(** X5.  Drift triggers exactly one update.  When the sanitized fetched
    alert differs from the expected one, the pass issues one [UpdateAlert],
    as its last call; a failed update is returned under its label, a
    successful one ends the pass without requeue. *)
Theorem drift_triggers_one_update
    (env : Env) (h : list call) config ha req cur m expected :
  DeletionTimestamp ha = None ->
  ContainsElement (Finalizers ha) humioFinalizer = true ->
  let c1 := GetAlert config req ha in
  let c2 := GetActionIDsMapForAlerts config req ha in
  let c3 := AlertTransform ha m in
  let c4 := UpdateAlert config req ha in
  env h c1 = (Some cur, None) ->
  env (h ++ [c1]) c2 = (m, None) ->
  env ((h ++ [c1]) ++ [c2]) c3 = (Some expected, None) ->
  sanitizeAlert cur <> expected ->
  let r := run env h (reconcileHumioAlert config ha req) in
  let updated := env (((h ++ [c1]) ++ [c2]) ++ [c3]) c4 in
  fst r = [c1; c2; c3; c4] /\
  count is_remote_mutation (fst r) = 1 /\
  (snd updated = None -> snd (snd r) = Returned Result_zero None) /\
  (forall e, snd updated = Some e ->
     snd (snd r) =
       Returned Result_zero (Some (wrapError "could not update alert" e))).
Proof.
  intros Hdel Hfin c1 c2 c3 c4 E1 E2 E3 Hne. subst c1 c2 c3 c4.
  unfold reconcileHumioAlert. rewrite Hdel.
  cbn -[humioFinalizer ContainsElement]. rewrite Hfin.
  cbn -[humioFinalizer ContainsElement sanitizeAlert DeepEqual].
  rewrite E1. cbn -[sanitizeAlert DeepEqual]. rewrite E2.
  cbn -[sanitizeAlert DeepEqual]. rewrite E3.
  cbn -[sanitizeAlert DeepEqual]. unfold DeepEqual.
  rewrite bool_decide_eq_false_2 by done. cbn -[sanitizeAlert].
  destruct (env _ (UpdateAlert _ _ _)) as [a [e|]]; cbn -[sanitizeAlert];
    repeat split; try done; by intros ? [= <-].
Qed.

(** X6.  Errors are neither swallowed nor invented.  When the pass
    returns, it returns an error exactly when the last call it made was
    answered with one; the error returned is that answer, bare or under one
    label, so its not-found classification is that of the answer. *)
Theorem returned_error_is_last_answer
    (env : Env) (h : list call) config ha req res err :
  snd (snd (run env h (reconcileHumioAlert config ha req))) = Returned res err ->
  let answered :=
    lastError env h (fst (run env h (reconcileHumioAlert config ha req))) in
  (err = None <-> answered = None) /\
  (forall e, err = Some e ->
     answered = Some e \/ answered = Some (unlabelled e)) /\
  errors_As_EntityNotFound err = errors_As_EntityNotFound answered.
Proof.
  unfold reconcileHumioAlert, lastError.
  answers; cbn; intros Hret; simplify_eq; normalise_histories;
    rewrite ?app_nil_r;
    repeat match goal with
    | H : env ?h0 ?c = _ |- context [env ?h0 ?c] => rewrite H
    end; cbn;
    (split; [split; congruence|]);
    (split; [intros ? [= <-]; cbn; auto|]); done.
Qed.

(** X7.  [setState] sets the state on the object before it writes, so the
    object carries the new state whether or not the write is accepted; a
    new state is written once and the answer of the write is returned; and a
    second [setState] with the same state writes nothing. *)
Theorem setState_sets_then_skips (env : Env) (h : list call) state ha :
  let r := run env h (setState state ha) in
  let ha1 := fst (snd r) in
  let w := StatusUpdate (SetStatusState ha state) in
  StatusState ha1 = state /\
  (StatusState ha <> state ->
     fst r = [w] /\ ha1 = SetStatusState ha state /\ snd (snd r) = env h w) /\
  (forall h', run env h' (setState state ha1) = ([], (ha1, None))).
Proof.
  unfold setState.
  destruct (String.eqb_spec (StatusState ha) state) as [Heq|Hne]; cbn.
  - split; [done|]. split; [by intros []|].
    intros h'. by rewrite (proj2 (String.eqb_eq _ _) Heq).
  - split; [done|]. split; [done|].
    intros h'. by rewrite String.eqb_refl.
Qed.

(** X8.  [sanitizeAlert] identifies exactly the alerts that agree outside
    the server-managed fields, and sanitizing twice is sanitizing once. *)
Theorem sanitizeAlert_kernel a b :
  (sanitizeAlert a = sanitizeAlert b <-> differOnlyInServerManaged a b) /\
  sanitizeAlert (sanitizeAlert a) = sanitizeAlert a.
Proof.
  split; [|done].
  unfold differOnlyInServerManaged, sanitizeAlert. destruct a, b; cbn. split.
  - by intros [= -> -> -> ->].
  - by intros (-> & -> & -> & ->).
Qed.

(** X9.  A fetch that answers neither an alert nor an error, or a
    transform that does so, makes the pass panic on the nil pointer: after
    the action ids are resolved and the transform has run, and before any
    remote create, update or delete. *)
Theorem nil_alert_panics_before_mutation
    (env : Env) (h : list call) config ha req cur m expected :
  DeletionTimestamp ha = None ->
  ContainsElement (Finalizers ha) humioFinalizer = true ->
  let c1 := GetAlert config req ha in
  let c2 := GetActionIDsMapForAlerts config req ha in
  let c3 := AlertTransform ha m in
  env h c1 = (cur, None) ->
  env (h ++ [c1]) c2 = (m, None) ->
  env ((h ++ [c1]) ++ [c2]) c3 = (expected, None) ->
  cur = None \/ expected = None ->
  run env h (reconcileHumioAlert config ha req) = ([c1; c2; c3], (ha, Panicked)).
Proof.
  intros Hdel Hfin c1 c2 c3 E1 E2 E3 Hnil. subst c1 c2 c3.
  unfold reconcileHumioAlert. rewrite Hdel.
  cbn -[humioFinalizer ContainsElement]. rewrite Hfin.
  cbn -[humioFinalizer ContainsElement sanitizeAlert DeepEqual].
  rewrite E1. cbn -[sanitizeAlert DeepEqual]. rewrite E2.
  cbn -[sanitizeAlert DeepEqual]. rewrite E3.
  cbn -[sanitizeAlert DeepEqual].
  destruct Hnil as [-> | ->]; [done|]. by destruct cur.
Qed.

(** X10.  The pass creates the alert only when the existence fetch was
    answered with an error classified not-found, and updates it only when
    the fetch was answered with an alert and no error; on a fetch that fails
    otherwise it does neither. *)
Theorem create_and_update_follow_the_fetch
    (env : Env) (h : list call) config ha req :
  let t := fst (run env h (reconcileHumioAlert config ha req)) in
  let fetched := env h (GetAlert config req ha) in
  (count is_create t <> 0 ->
     errors_As_EntityNotFound (snd fetched) = true /\
     firstn 2 t = [GetAlert config req ha; AddAlert config req ha]) /\
  (count is_update t <> 0 ->
     snd fetched = None /\ fst fetched <> None /\
     last t = Some (UpdateAlert config req ha)).
Proof.
  unfold reconcileHumioAlert.
  answers; cbn; split; intros Hc; try (by destruct Hc);
    repeat match goal with
    | H : env ?h0 ?c = _ |- context [env ?h0 ?c] => rewrite H
    end; cbn; auto.
Qed.

(** X11.  The pass asks for an immediate requeue without error in two
    cases only: it has just attached the finalizer token, or it has just
    created the alert and run the annotation fix-up. *)
Theorem requeue_only_after_attach_or_create
    (env : Env) (h : list call) config ha req res :
  snd (snd (run env h (reconcileHumioAlert config ha req))) = Returned res None ->
  Requeue res = true ->
  let t := fst (run env h (reconcileHumioAlert config ha req)) in
  t = [Update (SetFinalizers ha (Finalizers ha ++ [humioFinalizer]))] /\
    ContainsElement (Finalizers ha) humioFinalizer = false \/
  (exists added,
     t = [GetAlert config req ha; AddAlert config req ha;
          reconcileHumioAlertAnnotations added ha req]).
Proof.
  unfold reconcileHumioAlert.
  answers; cbn; intros Hret Hrq; simplify_eq; try discriminate; eauto.
  left. split; [done|]. by apply negb_true_iff.
Qed.

Lemma live_pass_shape (env : Env) (h : list call) config ha req :
  DeletionTimestamp ha = None ->
  ContainsElement (Finalizers ha) humioFinalizer = true ->
  let t := fst (run env h (reconcileHumioAlert config ha req)) in
  hd_error t = Some (GetAlert config req ha) /\
  count is_finalizer_write t = 0.
Proof.
  intros Hdel Hfin. unfold reconcileHumioAlert. rewrite Hdel.
  cbn -[humioFinalizer ContainsElement]. rewrite Hfin.
  answers; cbn; done.
Qed.

(** X12.  Passes compose.  The object written by the pass that attaches
    the token is not given the token again: a pass over it starts with the
    existence fetch and writes no finalizer list.  The object written by
    the pass that deletes the alert and removes the token makes a further
    pass a terminal no-op without any call. *)
Theorem next_pass_after_finalizer_change
    (env env2 : Env) (h h2 : list call) config ha req :
  let ha1 := fst (snd (run env h (reconcileHumioAlert config ha req))) in
  let r2 := run env2 h2 (reconcileHumioAlert config ha1 req) in
  (DeletionTimestamp ha = None ->
   ContainsElement (Finalizers ha) humioFinalizer = false ->
     hd_error (fst r2) = Some (GetAlert config req ha1) /\
     count is_finalizer_write (fst r2) = 0) /\
  (DeletionTimestamp ha <> None ->
   ContainsElement (Finalizers ha) humioFinalizer = true ->
   env h (DeleteAlert config req ha) = None ->
     r2 = ([], (ha1, Returned Result_zero None))).
Proof.
  split.
  - intros Hdel Hfin.
    assert (fst (snd (run env h (reconcileHumioAlert config ha req))) =
            SetFinalizers ha (Finalizers ha ++ [humioFinalizer])) as ->.
    { unfold reconcileHumioAlert. rewrite Hdel.
      cbn -[humioFinalizer ContainsElement]. rewrite Hfin.
      cbn -[humioFinalizer ContainsElement].
      by destruct (env h (Update _)). }
    apply live_pass_shape; [done | apply ContainsElement_attach].
  - intros Hdel Hfin Hok.
    assert (fst (snd (run env h (reconcileHumioAlert config ha req))) =
            SetFinalizers ha (RemoveElement (Finalizers ha) humioFinalizer))
      as ->.
    { unfold reconcileHumioAlert.
      destruct (DeletionTimestamp ha); [|done].
      cbn -[humioFinalizer ContainsElement RemoveElement]. rewrite Hfin.
      cbn -[humioFinalizer ContainsElement RemoveElement]. rewrite Hok.
      cbn -[humioFinalizer ContainsElement RemoveElement].
      by destruct (env _ (Update _)). }
    unfold reconcileHumioAlert.
    cbn -[humioFinalizer ContainsElement RemoveElement].
    destruct (DeletionTimestamp ha); [|done].
    cbn -[humioFinalizer ContainsElement RemoveElement].
    by rewrite ContainsElement_RemoveElement.
Qed.

End ControllerFacts.

(** ** The secret table *)
Section SecretsFacts.
Import Secrets.

Lemma SecretFromHa_table m hn m' hn' :
  SecretFromHa m hn = Some (m', hn') ->
  exists t, token_of hn = Some t /\ m' = <[secretKey hn := t]> m.
Proof.
  unfold SecretFromHa, token_of.
  destruct (SlackPostMessageProperties (Spec hn)) as [p|]; [|done].
  intros [= <- <-]. eauto.
Qed.

Lemma SecretFromHa_all_untouched hns : forall m m' (k : string),
  SecretFromHa_all m hns = Some m' ->
  Forall (fun h => secretKey h <> k) hns ->
  m' !! k = m !! k.
Proof.
  induction hns as [|h hns IH]; simpl; intros m m' k Hrun Hk.
  - by inversion Hrun.
  - destruct (SecretFromHa m h) as [[m1 h1]|] eqn:E; [|done].
    apply Forall_cons in Hk as [Hh Hrest].
    apply SecretFromHa_table in E as (t & _ & ->).
    rewrite (IH _ _ _ Hrun Hrest).
    by apply lookup_insert_ne.
Qed.

(** C10.  For an action [hn] whose [ApiToken] is [t] before the call,
    [SecretFromHa] stores [t] under the action's key and clears the token
    on the action, after which [HaHasSecret] returns [(t, true)], for the
    action as it was and as it now is; and after any run of [SecretFromHa]
    from the initial table that never stored the key of an action [hn],
    [HaHasSecret hn] returns the empty string and [false]. *)
Theorem SecretFromHa_then_HaHasSecret :
  (forall m hn t, token_of hn = Some t ->
     exists m' hn', SecretFromHa m hn = Some (m', hn') /\
                    HaHasSecret m' hn' = (t, true) /\
                    HaHasSecret m' hn = (t, true) /\
                    token_of hn' = Some "") /\
  (forall hns m' hn, SecretFromHa_all HaSecrets_init hns = Some m' ->
     Forall (fun h => secretKey h <> secretKey hn) hns ->
     HaHasSecret m' hn = ("", false)).
Proof.
  split.
  - intros m hn t Ht. unfold token_of in Ht.
    destruct (SlackPostMessageProperties (Spec hn)) as [p|] eqn:E; [|done].
    injection Ht as <-.
    unfold SecretFromHa. rewrite E. eexists _, _. split; [done|].
    unfold HaHasSecret.
    change (secretKey (mkAction _ _ _)) with (secretKey hn).
    rewrite lookup_insert_eq. done.
  - intros hns m' hn Hrun Hk. unfold HaHasSecret.
    rewrite (SecretFromHa_all_untouched _ _ _ _ Hrun Hk).
    unfold HaSecrets_init. by rewrite lookup_empty.
Qed.

(** X13.  Storing twice erases.  [SecretFromHa] empties the token on the
    action it is given, so a second call on that action stores the empty
    string under the same key: [HaHasSecret] then finds a secret, and it is
    empty. *)
Theorem SecretFromHa_twice_erases m hn m1 hn1 :
  SecretFromHa m hn = Some (m1, hn1) ->
  exists m2,
    SecretFromHa m1 hn1 = Some (m2, hn1) /\
    HaHasSecret m2 hn = ("", true) /\
    HaHasSecret m2 hn1 = ("", true).
Proof.
  unfold SecretFromHa.
  destruct (SlackPostMessageProperties (Spec hn)) as [p|]; [|done].
  intros [= <- <-]. cbn. eexists. split; [reflexivity|].
  unfold HaHasSecret. change (secretKey (mkAction _ _ _)) with (secretKey hn).
  by rewrite lookup_insert_eq.
Qed.

Lemma append_assoc_string (a b c : string) :
  (a +:+ b) +:+ c = a +:+ (b +:+ c).
Proof.
  induction a as [|x a IH]; [reflexivity|].
  change (String x ((a +:+ b) +:+ c) = String x (a +:+ (b +:+ c))).
  by f_equal.
Qed.

(** X14.  The key does not tell namespace and name apart.  A secret stored
    for one action is the secret [HaHasSecret] finds for every action with
    the same key, and two actions share their key as soon as moving a dash
    from the namespace to the name turns one into the other. *)
Theorem secretKey_is_shared :
  (forall m hn1 hn2 t,
     secretKey hn1 = secretKey hn2 -> token_of hn1 = Some t ->
     exists m' hn1', SecretFromHa m hn1 = Some (m', hn1') /\
                     HaHasSecret m' hn2 = (t, true)) /\
  (forall (a b c : string) spec1 spec2,
     secretKey (mkAction (a +:+ "-" +:+ b) c spec1) =
     secretKey (mkAction a (b +:+ "-" +:+ c) spec2)).
Proof.
  split.
  - intros m hn1 hn2 t Hkey Ht. unfold token_of in Ht.
    destruct (SlackPostMessageProperties (Spec hn1)) as [p|] eqn:E; [|done].
    injection Ht as <-. unfold SecretFromHa. rewrite E.
    eexists _, _. split; [reflexivity|].
    unfold HaHasSecret. rewrite <- Hkey. by rewrite lookup_insert_eq.
  - intros a b c spec1 spec2. unfold secretKey, Namespace, Name.
    by rewrite !append_assoc_string.
Qed.

(** X15.  The last write wins.  A run of [SecretFromHa] over a list of
    actions goes through exactly when every action has the Slack block;
    afterwards [HaHasSecret] finds, for any action, the token of the last
    action of the list stored under its key, and what the table held before
    if there is none. *)
Theorem SecretFromHa_all_last_write_wins hns :
  forall m,
    (SecretFromHa_all m hns <> None <->
       Forall (fun h => token_of h <> None) hns) /\
    (forall m' hn, SecretFromHa_all m hns = Some m' ->
       HaHasSecret m' hn =
         match storedAfter (secretKey hn) hns (m !! secretKey hn) with
         | Some secret => (secret, true)
         | None => ("", false)
         end).
Proof.
  induction hns as [|h hns IH]; intros m; cbn.
  - split; [split; [constructor | done]|].
    intros m' hn [= <-]. done.
  - destruct (SecretFromHa m h) as [[m1 h1]|] eqn:E.
    + destruct (SecretFromHa_table _ _ _ _ E) as (t & Ht & ->).
      destruct (IH (<[secretKey h := t]> m)) as [IHok IHget]. split.
      * rewrite IHok. rewrite Forall_cons. rewrite Ht. intuition congruence.
      * intros m' hn Hrun. rewrite (IHget _ _ Hrun).
        destruct (String.eqb_spec (secretKey h) (secretKey hn)) as [Heq|Hne].
        -- by rewrite Heq, lookup_insert_eq, Ht.
        -- by rewrite lookup_insert_ne.
    + split; [|done]. split; [done|]. rewrite Forall_cons. intros [Hh _].
      unfold SecretFromHa, token_of in *.
      by destruct (SlackPostMessageProperties (Spec h)).
Qed.

End SecretsFacts.

(** ** The properties at concrete inputs *)
Section Instances.
Import AlertController Samples.
Local Open Scope list_scope.

(** C1, evaluated.  No cluster configuration can be obtained (the helper
    returns an error and no cluster) and the status write succeeds:
    [Reconcile] records [ConfigError] and returns a nil error. *)
Example Reconcile_config_error_returns_nil :
  noUsableConfig None (Some (errorString "no such cluster")) = true /\
  run (scripted scriptNoConfig) [] (Reconcile "" req0) =
    ([Get req0; NewCluster "humio" "" "logging";
      StatusUpdate (SetStatusState haLive HumioAlertStateConfigError)],
     Returned Result_zero None).
Proof. split; reflexivity. Qed.

(** The deletion branch on a failing and on a succeeding remote delete. *)
Lemma delete_before_unfinalize_witness :
  snd (run (scripted scriptDeleteFails) [] (Reconcile "" req0)) =
    Returned Result_zero
      (Some (wrapError "Delete alert returned error" (errorString "503"))) /\
  List.filter is_remote
    (fst (run (scripted scriptDeleteOk) [] (Reconcile "" req0))) =
    [DeleteAlert cfg0 req0 haDeleting; GetAlert cfg0 req0 haGone].
Proof.
  assert (Hdel : DeletionTimestamp haDeleting <> None) by discriminate.
  split.
  - exact (proj1 (proj2 (proj1 (delete_before_unfinalize
                                  (scripted scriptDeleteFails) "" req0
                                  haDeleting (Some cluster0) None cfg0
                                  Hdel eq_refl eq_refl eq_refl eq_refl
                                  eq_refl eq_refl)
                           (errorString "503") eq_refl))).
  - destruct (proj2 (delete_before_unfinalize
                       (scripted scriptDeleteOk) "" req0
                       haDeleting (Some cluster0) None cfg0
                       Hdel eq_refl eq_refl eq_refl eq_refl eq_refl eq_refl)
                eq_refl) as (_ & _ & _ & _ & _ & Hrem & _).
    exact Hrem.
Defined.

(** The remote delete succeeds.  The pass then fetches the alert, a remote
    call after the delete; and where the write that removes the token is
    refused, the removal is not persisted and the pass returns the error of
    the write. *)
Lemma delete_is_followed_by_fetch :
  let env := scripted scriptDeleteOk in
  let r := run env [] (Reconcile "" req0) in
  let r' := run (scripted scriptUnfinalizeRefused) [] (Reconcile "" req0) in
  env [] (Get req0) = (haDeleting, None) /\
  DeletionTimestamp haDeleting <> None /\
  ContainsElement (Finalizers haDeleting) humioFinalizer = true /\
  env [Get req0; NewCluster "humio" "" "logging"]
      (DeleteAlert cfg0 req0 haDeleting) = None /\
  fst r = [Get req0; NewCluster "humio" "" "logging";
           DeleteAlert cfg0 req0 haDeleting; Update haGone;
           GetAlert cfg0 req0 haGone;
           StatusUpdate (SetStatusState haGone HumioAlertStateNotFound)] /\
  count is_remote (skipn 3 (fst r)) <> 0 /\
  scripted scriptUnfinalizeRefused
      [Get req0; NewCluster "humio" "" "logging";
       DeleteAlert cfg0 req0 haDeleting] (Update haGone) =
    Some (errorString "conflict") /\
  snd r' = Returned Result_zero (Some (errorString "conflict")).
Proof.
  cbv zeta. repeat split; try reflexivity; discriminate.
Qed.

(** The first pass over a new object. *)
Lemma finalizer_before_mutation_witness :
  (exists res,
     snd (run (scripted scriptFirstPass) [] (Reconcile "" req0)) =
       Returned res None /\ Requeue res = true) /\
  List.filter is_remote_mutation
    (fst (run (scripted scriptFirstPass) [] (Reconcile "" req0))) = [].
Proof.
  destruct (finalizer_before_mutation (scripted scriptFirstPass) "" req0 haNew
              (Some cluster0) None cfg0
              eq_refl eq_refl eq_refl eq_refl eq_refl eq_refl eq_refl)
    as (_ & _ & _ & _ & Hmut & _ & Hok & _).
  split; [exact (Hok eq_refl) | exact Hmut].
Defined.

(** The first pass over a new object, the write of the token refused: the
    pass returns the error of the write, and no requeue. *)
Lemma attach_refused_no_requeue :
  let env := scripted scriptAttachRefused in
  let r := run env [] (Reconcile "" req0) in
  env [] (Get req0) = (haNew, None) /\
  DeletionTimestamp haNew = None /\
  ContainsElement (Finalizers haNew) humioFinalizer = false /\
  fst (run env [Get req0; NewCluster "humio" "" "logging"]
         (reconcileHumioAlert cfg0 haNew req0)) = [Update haLive] /\
  snd (run env [Get req0; NewCluster "humio" "" "logging"]
         (reconcileHumioAlert cfg0 haNew req0)) =
    (haLive, Returned (mkResult false 0) (Some (errorString "conflict"))) /\
  snd r = Returned (mkResult false 0) (Some (errorString "conflict")) /\
  (forall res err, snd r = Returned res err -> Requeue res = false).
Proof.
  cbv zeta. repeat split; try reflexivity. by intros res err [= <- <-].
Qed.

(** The steady state, with the status already [Exists]: nothing is
    written. *)
Lemma idempotent_when_equal_witness :
  count is_remote_mutation
    (fst (run (scripted scriptSteadyExists) [] (Reconcile "" req0))) = 0 /\
  count is_status_write
    (fst (run (scripted scriptSteadyExists) [] (Reconcile "" req0))) = 0.
Proof.
  destruct (idempotent_when_equal (scripted scriptSteadyExists) "" req0
              haExists (Some cluster0) None cfg0
              alertFetched idMap0 alertExpected
              eq_refl eq_refl eq_refl eq_refl eq_refl eq_refl eq_refl
              eq_refl eq_refl eq_refl eq_refl)
    as (_ & _ & Hmut & Hskip & _).
  split; [exact Hmut | exact (proj2 (Hskip eq_refl))].
Defined.

(** The steady state, with the status still unset: the fetched alert matches
    the transform, no remote mutation is made, and the deferred refresh
    writes the status [Exists]. *)
Lemma steady_pass_writes_status :
  let env := scripted scriptSteady in
  let r := run env [] (Reconcile "" req0) in
  env [] (Get req0) = (haLive, None) /\
  env [Get req0; NewCluster "humio" "" "logging"] (GetAlert cfg0 req0 haLive) =
    (Some alertFetched, None) /\
  env [Get req0; NewCluster "humio" "" "logging"; GetAlert cfg0 req0 haLive;
       GetActionIDsMapForAlerts cfg0 req0 haLive]
      (AlertTransform haLive idMap0) = (Some alertExpected, None) /\
  sanitizeAlert alertFetched = alertExpected /\
  StatusState haLive = "" /\
  last (fst r) =
    Some (StatusUpdate (SetStatusState haLive HumioAlertStateExists)) /\
  count is_status_write (fst r) = 1 /\
  StatusState (SetStatusState haLive HumioAlertStateExists) <>
    StatusState haLive.
Proof.
  cbv zeta. repeat split; try reflexivity. discriminate.
Qed.

(** The alert is absent, the creation succeeds, the annotation fix-up
    fails: the pass returns the fix-up's error, and no requeue. *)
Lemma create_fixup_failure_not_requeue :
  let env := scripted scriptCreateFixupFails in
  let r := run env [] (reconcileHumioAlert cfg0 haLive req0) in
  DeletionTimestamp haLive = None /\
  ContainsElement (Finalizers haLive) humioFinalizer = true /\
  errors_As_EntityNotFound (snd (env [] (GetAlert cfg0 req0 haLive))) = true /\
  snd (env [GetAlert cfg0 req0 haLive] (AddAlert cfg0 req0 haLive)) = None /\
  snd (snd r) =
    Returned (mkResult false 0)
      (Some (errorString "failed to add ID annotation to alert")) /\
  (forall res err, snd (snd r) = Returned res err -> Requeue res = false).
Proof.
  cbv zeta. repeat split; try reflexivity. by intros res err [= <- <-].
Qed.

(** The alert is absent, creation and fix-up succeed. *)
Lemma create_when_not_found_witness :
  (exists res,
     snd (snd (run (scripted scriptCreateOk) []
                 (reconcileHumioAlert cfg0 haLive req0))) =
       Returned res None /\ Requeue res = true) /\
  count is_update
    (fst (run (scripted scriptCreateOk) []
            (reconcileHumioAlert cfg0 haLive req0))) = 0.
Proof.
  destruct (create_when_not_found (scripted scriptCreateOk) []
              cfg0 haLive req0 eq_refl eq_refl eq_refl)
    as (_ & Hok & Hno & _).
  destruct (Hok eq_refl) as (_ & Hrq & _).
  split; [exact (Hrq eq_refl) | exact Hno].
Defined.

(** The fetched alert and the transform agree on every field that is not
    server-managed, the transform carries an identifier: an update is
    issued. *)
Lemma transform_with_identifier_forces_update :
  let env := scripted scriptTransformWithID in
  let r := run env [] (reconcileHumioAlert cfg0 haLive req0) in
  env [] (GetAlert cfg0 req0 haLive) = (Some alertFetched, None) /\
  env [GetAlert cfg0 req0 haLive; GetActionIDsMapForAlerts cfg0 req0 haLive]
      (AlertTransform haLive idMap0) = (Some alertExpectedWithID, None) /\
  differOnlyInServerManaged alertFetched alertExpectedWithID /\
  count is_update (fst r) = 1.
Proof. cbv zeta. repeat split; reflexivity. Qed.

(** The fetched alert carries identifier, timestamp and last error; the
    transform leaves them empty. *)
Lemma sanitization_exclusion_witness :
  count is_update
    (fst (run (scripted scriptSteady) []
            (reconcileHumioAlert cfg0 haLive req0))) = 0.
Proof.
  assert (Hd : differOnlyInServerManaged alertFetched alertExpected)
    by (repeat split; reflexivity).
  assert (Hz : serverManagedZero alertExpected)
    by (repeat split; reflexivity).
  exact (proj1 (sanitization_exclusion (scripted scriptSteady) [] cfg0 haLive
                  req0 alertFetched idMap0 alertExpected
                  eq_refl eq_refl eq_refl eq_refl eq_refl Hd Hz)).
Defined.

(** Deletion marker, no token: [Reconcile] returns the no-op, and its
    deferred refresh has fetched the alert. *)
Lemma already_deleted_still_fetches :
  let r := run (scripted scriptGone) [] (Reconcile "" req0) in
  scripted scriptGone [] (Get req0) = (haGone, None) /\
  DeletionTimestamp haGone <> None /\
  ContainsElement (Finalizers haGone) humioFinalizer = false /\
  snd r = Returned Result_zero None /\
  List.filter is_remote (fst r) = [GetAlert cfg0 req0 haGone] /\
  count is_remote (fst r) <> 0.
Proof. cbv zeta. repeat split; try reflexivity; discriminate. Qed.

(** Deletion marker, no token, with a resolved configuration. *)
Lemma noop_on_already_deleted_witness :
  run (scripted scriptGone) [] (reconcileHumioAlert cfg0 haGone req0) =
    ([], (haGone, Returned Result_zero None)) /\
  count is_remote_mutation
    (fst (run (scripted scriptGone) [] (Reconcile "" req0))) = 0.
Proof.
  destruct (noop_on_already_deleted (scripted scriptGone) "" req0 haGone
              (Some cluster0) None cfg0) as [Hcore Hrec];
    [discriminate | reflexivity |].
  split; [apply Hcore|].
  exact (proj1 (proj2 (Hrec eq_refl eq_refl eq_refl eq_refl eq_refl))).
Defined.

(** The remote delete fails: [Reconcile] returns that failure although the
    refresh that follows succeeds. *)
Lemma status_refresh_is_diagnostic_witness :
  snd (run (scripted scriptDeleteFails) [] (Reconcile "" req0)) =
    snd (snd (run (scripted scriptDeleteFails)
                [Get req0; NewCluster "humio" "" "logging"]
                (reconcileHumioAlert cfg0 haDeleting req0))).
Proof.
  exact (proj1 (status_refresh_is_diagnostic (scripted scriptDeleteFails) ""
                  req0 haDeleting (Some cluster0) None cfg0
                  eq_refl eq_refl eq_refl eq_refl eq_refl)).
Defined.

(** One action stored, another one looked up. *)
Lemma SecretFromHa_then_HaHasSecret_witness :
  (exists m' hn', Secrets.SecretFromHa Secrets.HaSecrets_init actionSlack
                    = Some (m', hn') /\
                  Secrets.HaHasSecret m' hn' = ("xoxb-1", true) /\
                  Secrets.HaHasSecret m' actionSlack = ("xoxb-1", true) /\
                  Secrets.token_of hn' = Some "") /\
  Secrets.HaHasSecret (<["logging-notify" := "xoxb-1"]> Secrets.HaSecrets_init)
    actionOther = ("", false).
Proof.
  split.
  - apply (proj1 SecretFromHa_then_HaHasSecret). reflexivity.
  - apply (proj2 SecretFromHa_then_HaHasSecret [actionSlack]).
    + reflexivity.
    + constructor; [|constructor]. vm_compute. discriminate.
Defined.

(** A steady pass reaches the remote service: the request was in scope,
    the object was read, the configuration was usable. *)
Lemma Reconcile_acts_only_with_config_witness :
  snd (scripted scriptSteady [] (Get req0)) = None /\
  noUsableConfig (Some cluster0) None = false.
Proof.
  exact (proj2 (Reconcile_acts_only_with_config (scripted scriptSteady) "" req0
                  (or_introl (fun H => O_S _ (eq_sym H))))).
Defined.

(** The object is gone when the request is served. *)
Lemma Reconcile_object_unreadable_witness :
  run (scripted scriptObjectGone) [] (Reconcile "logging" req0) =
    ([Get req0], Returned Result_zero None).
Proof.
  destruct (Reconcile_object_unreadable (scripted scriptObjectGone) "logging"
              req0 StatusNotFound (or_intror eq_refl) eq_refl)
    as (Ht & Hnf & _).
  specialize (Hnf eq_refl).
  destruct (run (scripted scriptObjectGone) [] (Reconcile "logging" req0))
    as [t out].
  cbn in Ht, Hnf. by rewrite Ht, Hnf.
Defined.

(** The existence fetch times out. *)
Lemma fetch_failure_is_reported_witness :
  run (scripted scriptFetchFails) [] (reconcileHumioAlert cfg0 haLive req0) =
    ([GetAlert cfg0 req0 haLive],
     (haLive,
      Returned Result_zero
        (Some (wrapError "could not check if alert exists"
                 (errorString "timeout"))))).
Proof.
  exact (fetch_failure_is_reported (scripted scriptFetchFails) [] cfg0 haLive
           req0 (errorString "timeout") eq_refl eq_refl eq_refl eq_refl).
Defined.

(** The action ids cannot be resolved. *)
Lemma resolution_failure_blocks_update_witness :
  fst (run (scripted scriptActionIdsFail) []
         (reconcileHumioAlert cfg0 haLive req0)) =
    [GetAlert cfg0 req0 haLive; GetActionIDsMapForAlerts cfg0 req0 haLive].
Proof.
  exact (proj1 (proj1 (resolution_failure_blocks_update
                         (scripted scriptActionIdsFail) [] cfg0 haLive req0
                         (Some alertFetched) eq_refl eq_refl eq_refl)
                  (errorString "no such action") eq_refl)).
Defined.

(** The transform carries an identifier the sanitized alert has lost. *)
Lemma drift_triggers_one_update_witness :
  count is_remote_mutation
    (fst (run (scripted scriptTransformWithID) []
            (reconcileHumioAlert cfg0 haLive req0))) = 1.
Proof.
  assert (Hne : sanitizeAlert alertFetched <> alertExpectedWithID)
    by discriminate.
  exact (proj1 (proj2 (drift_triggers_one_update
                         (scripted scriptTransformWithID) [] cfg0 haLive req0
                         alertFetched idMap0 alertExpectedWithID
                         eq_refl eq_refl eq_refl eq_refl eq_refl Hne))).
Defined.

(** The failed remote delete is the error the pass returns. *)
Lemma returned_error_is_last_answer_witness :
  lastError (scripted scriptDeleteFails) []
    (fst (run (scripted scriptDeleteFails) []
            (reconcileHumioAlert cfg0 haDeleting req0))) =
    Some (wrapError "Delete alert returned error" (errorString "503")) \/
  lastError (scripted scriptDeleteFails) []
    (fst (run (scripted scriptDeleteFails) []
            (reconcileHumioAlert cfg0 haDeleting req0))) =
    Some (unlabelled
            (wrapError "Delete alert returned error" (errorString "503"))).
Proof.
  exact (proj1 (proj2 (returned_error_is_last_answer
                         (scripted scriptDeleteFails) [] cfg0 haDeleting req0
                         Result_zero _ eq_refl)) _ eq_refl).
Defined.

(** The status write is refused; the object carries the state all the
    same. *)
Lemma setState_sets_then_skips_witness :
  snd (snd (run (scripted scriptStatusWriteFails) []
              (setState HumioAlertStateExists haLive))) =
    Some (errorString "conflict").
Proof.
  assert (Hne : StatusState haLive <> HumioAlertStateExists) by discriminate.
  exact (proj2 (proj2 (proj1 (proj2 (setState_sets_then_skips
                                       (scripted scriptStatusWriteFails) []
                                       HumioAlertStateExists haLive)) Hne))).
Defined.

(** The fetch answers nothing at all. *)
Lemma nil_alert_panics_before_mutation_witness :
  run (scripted scriptNilAlert) [] (reconcileHumioAlert cfg0 haLive req0) =
    ([GetAlert cfg0 req0 haLive; GetActionIDsMapForAlerts cfg0 req0 haLive;
      AlertTransform haLive idMap0],
     (haLive, Panicked)).
Proof.
  exact (nil_alert_panics_before_mutation (scripted scriptNilAlert) [] cfg0
           haLive req0 None idMap0 (Some alertExpected)
           eq_refl eq_refl eq_refl eq_refl eq_refl (or_introl eq_refl)).
Defined.

(** A pass that creates the alert had its fetch answered not-found. *)
Lemma create_and_update_follow_the_fetch_witness :
  errors_As_EntityNotFound
    (snd (scripted scriptCreateOk [] (GetAlert cfg0 req0 haLive))) = true.
Proof.
  exact (proj1 (proj1 (create_and_update_follow_the_fetch
                         (scripted scriptCreateOk) [] cfg0 haLive req0)
                  (fun H => O_S _ (eq_sym H)))).
Defined.

(** The requeue of the first pass comes from the attached token. *)
Lemma requeue_only_after_attach_or_create_witness :
  fst (run (scripted scriptSteady) [] (reconcileHumioAlert cfg0 haNew req0)) =
    [Update (SetFinalizers haNew (Finalizers haNew ++ [humioFinalizer]))] /\
  ContainsElement (Finalizers haNew) humioFinalizer = false \/
  (exists added,
     fst (run (scripted scriptSteady) []
            (reconcileHumioAlert cfg0 haNew req0)) =
       [GetAlert cfg0 req0 haNew; AddAlert cfg0 req0 haNew;
        reconcileHumioAlertAnnotations added haNew req0]).
Proof.
  exact (requeue_only_after_attach_or_create (scripted scriptSteady) [] cfg0
           haNew req0 Result_requeue eq_refl eq_refl).
Defined.

(** The pass after the token is attached, and the pass after it is
    removed. *)
Lemma next_pass_after_finalizer_change_witness :
  count is_finalizer_write
    (fst (run (scripted scriptSteady) []
            (reconcileHumioAlert cfg0
               (fst (snd (run (scripted scriptSteady) []
                            (reconcileHumioAlert cfg0 haNew req0))))
               req0))) = 0 /\
  run (scripted scriptGone) []
    (reconcileHumioAlert cfg0
       (fst (snd (run (scripted scriptDeleteOk) []
                    (reconcileHumioAlert cfg0 haDeleting req0))))
       req0) =
    ([], (haGone, Returned Result_zero None)).
Proof.
  split.
  - exact (proj2 (proj1 (next_pass_after_finalizer_change
                           (scripted scriptSteady) (scripted scriptSteady)
                           [] [] cfg0 haNew req0) eq_refl eq_refl)).
  - assert (Hdel : DeletionTimestamp haDeleting <> None) by discriminate.
    exact (proj2 (next_pass_after_finalizer_change
                    (scripted scriptDeleteOk) (scripted scriptGone)
                    [] [] cfg0 haDeleting req0) Hdel eq_refl eq_refl).
Defined.

(** The same action handed to [SecretFromHa] twice. *)
Lemma SecretFromHa_twice_erases_witness :
  exists m2,
    Secrets.SecretFromHa
      (<["logging-notify" := "xoxb-1"]> Secrets.HaSecrets_init)
      (Secrets.mkAction "logging" "notify"
         (Secrets.mkSpec (Some (Secrets.mkSlackPost "" ["#ops"])))) =
      Some (m2, Secrets.mkAction "logging" "notify"
                  (Secrets.mkSpec (Some (Secrets.mkSlackPost "" ["#ops"])))) /\
    Secrets.HaHasSecret m2 actionSlack = ("", true) /\
    Secrets.HaHasSecret m2
      (Secrets.mkAction "logging" "notify"
         (Secrets.mkSpec (Some (Secrets.mkSlackPost "" ["#ops"])))) =
      ("", true).
Proof.
  exact (SecretFromHa_twice_erases Secrets.HaSecrets_init actionSlack _ _
           eq_refl).
Defined.

(** "team-a" / "notify" and "team" / "a-notify". *)
Lemma secretKey_is_shared_witness :
  exists m' hn1',
    Secrets.SecretFromHa Secrets.HaSecrets_init actionDashNamespace =
      Some (m', hn1') /\
    Secrets.HaHasSecret m' actionDashName = ("xoxb-3", true).
Proof.
  exact (proj1 secretKey_is_shared Secrets.HaSecrets_init actionDashNamespace
           actionDashName "xoxb-3" eq_refl eq_refl).
Defined.

(** Two actions stored; the lookup of the first finds its own token. *)
Lemma SecretFromHa_all_last_write_wins_witness :
  Secrets.HaHasSecret
    (<["logging-page" := "xoxb-2"]>
       (<["logging-notify" := "xoxb-1"]> Secrets.HaSecrets_init))
    actionSlack = ("xoxb-1", true).
Proof.
  exact (proj2 (SecretFromHa_all_last_write_wins [actionSlack; actionOther]
                  Secrets.HaSecrets_init) _ actionSlack eq_refl).
Defined.

End Instances.
